(** * Binance futures testnet bot: the command facade and its form handlers

    A shallow embedding of [src/main.py]: the class [BasicBot] (constructor
    and five operations, each a [try]/[except] around one call on the
    exchange SDK client) and the two Streamlit form handlers that parse text
    fields and dispatch to the facade.

    Python values are the JSON-like values the SDK hands back; a [dict] is an
    association list in insertion order.  Effects are explicit: a computation
    yields the events it emitted (log records, calls on the SDK client, UI
    widgets) together with a returned value or a raised exception.  The SDK
    and the exchange are not part of the repository, so the behaviour of a
    client call is an input of the model. *)

From Stdlib Require Import ZArith List Bool Ascii String Lia SpecFloat.
Import ListNotations.

Local Open Scope string_scope.
Local Open Scope list_scope.

(** ** Text *)

Module Text.

Definition is_lower (c : ascii) : bool :=
  let n := nat_of_ascii c in (97 <=? n)%nat && (n <=? 122)%nat.

Definition is_upper (c : ascii) : bool :=
  let n := nat_of_ascii c in (65 <=? n)%nat && (n <=? 90)%nat.

Definition is_digit (c : ascii) : bool :=
  let n := nat_of_ascii c in (48 <=? n)%nat && (n <=? 57)%nat.

(** [str.upper] and [str.lower] on the ASCII letters; any other byte is
    left as it is (Python also maps the cased letters outside ASCII). *)
Definition upper_char (c : ascii) : ascii :=
  if is_lower c then ascii_of_nat (nat_of_ascii c - 32) else c.

Definition lower_char (c : ascii) : ascii :=
  if is_upper c then ascii_of_nat (nat_of_ascii c + 32) else c.

Fixpoint upper (s : string) : string :=
  match s with
  | EmptyString => EmptyString
  | String c r => String (upper_char c) (upper r)
  end.

Fixpoint lower (s : string) : string :=
  match s with
  | EmptyString => EmptyString
  | String c r => String (lower_char c) (lower r)
  end.



Fixpoint join (sep : string) (l : list string) : string :=
  match l with
  | [] => ""
  | [x] => x
  | x :: r => x ++ sep ++ join sep r
  end.

(** [needle in hay] for two strings. *)
Fixpoint contains (needle hay : string) : bool :=
  if prefix needle hay then true
  else match hay with
       | EmptyString => false
       | String _ r => contains needle r
       end.

Fixpoint chars (s : string) : list string :=
  match s with
  | EmptyString => []
  | String c r => String c EmptyString :: chars r
  end.

Definition digit_char (d : Z) : ascii := ascii_of_nat (48 + Z.to_nat d).

(** Decimal digits of a non-negative integer, most significant first. *)
Fixpoint digits_fuel (fuel : nat) (n : Z) (acc : string) : string :=
  match fuel with
  | O => acc
  | S k =>
      let acc' := String (digit_char (n mod 10)) acc in
      if (n <? 10)%Z then acc' else digits_fuel k (n / 10)%Z acc'
  end.

Definition digits (n : Z) : string :=
  digits_fuel (S (Z.to_nat (Z.log2 n))) n "".

(** [str(n)] for an [int]. *)
Definition of_Z (n : Z) : string :=
  if (n <? 0)%Z then "-" ++ digits (- n) else digits n.

Fixpoint zeros (n : nat) : string :=
  match n with
  | O => ""
  | S k => String "0" (zeros k)
  end.

End Text.

(** ** Numbers: [float] and the builtins [float()], [int()], [str()]

    A Python [float] is an IEEE 754 binary64 number, here a [spec_float]
    with 53 bits of precision and exponent bound 1024.  Text is read as
    ASCII: the digits and blanks outside ASCII that Python accepts as well
    are not recognised. *)

Module Num.

Local Open Scope Z_scope.

Definition prec : Z := 53.
Definition emax : Z := 1024.

Definition float_eqb (x y : spec_float) : bool :=
  match x, y with
  | S754_zero a, S754_zero b => Bool.eqb a b
  | S754_infinity a, S754_infinity b => Bool.eqb a b
  | S754_nan, S754_nan => true
  | S754_finite a m e, S754_finite b n f =>
      Bool.eqb a b && Pos.eqb m n && Z.eqb e f
  | _, _ => false
  end.

(** The binary64 number nearest to [(-1)^neg * m * 10^e] (ties to even). *)
Definition of_decimal (neg : bool) (m e : Z) : spec_float :=
  match m with
  | Zpos _ =>
      let num := m * 10 ^ Z.max e 0 in
      let den := 10 ^ Z.max (- e) 0 in
      SFdiv prec emax (S754_finite neg (Z.to_pos num) 0)
                      (S754_finite false (Z.to_pos den) 0)
  | _ => S754_zero neg
  end.

(** [x <= 0] for a float [x]: false on [nan]. *)
Definition le_zero (x : spec_float) : bool := SFleb x (S754_zero false).

(** *** Reading a number from text *)

Definition is_space (c : ascii) : bool :=
  let n := nat_of_ascii c in
  ((9 <=? n) && (n <=? 13) || (28 <=? n) && (n <=? 32))%nat.

Fixpoint lstrip (s : string) : string :=
  match s with
  | String c r => if is_space c then lstrip r else s
  | EmptyString => s
  end.

Fixpoint rstrip (s : string) : string :=
  match s with
  | EmptyString => EmptyString
  | String c r =>
      match rstrip r with
      | EmptyString => if is_space c then EmptyString else String c EmptyString
      | r' => String c r'
      end
  end.

Definition strip (s : string) : string := rstrip (lstrip s).

(** An underscore is accepted only between two digits; the accepted ones
    are removed before the number is read. *)
Fixpoint drop_underscores (prev : option ascii) (s : string) : option string :=
  match s with
  | EmptyString =>
      match prev with
      | Some "_"%char => None
      | _ => Some EmptyString
      end
  | String c r =>
      if Ascii.eqb c "_" then
        match prev with
        | Some p => if Text.is_digit p then drop_underscores (Some c) r else None
        | None => None
        end
      else
        let after_underscore :=
          match prev with Some "_"%char => true | _ => false end in
        if after_underscore && negb (Text.is_digit c) then None
        else option_map (String c) (drop_underscores (Some c) r)
  end.

Definition take_sign (s : string) : bool * string :=
  match s with
  | String "-" r => (true, r)
  | String "+" r => (false, r)
  | _ => (false, s)
  end.

(** Leading digits of [s]: their value appended to [acc], how many there
    were, and the rest of the text. *)
Fixpoint take_digits (s : string) (acc : Z) (count : Z) : Z * Z * string :=
  match s with
  | String c r =>
      if Text.is_digit c
      then take_digits r (10 * acc + (Z.of_nat (nat_of_ascii c) - 48)) (count + 1)
      else (acc, count, s)
  | EmptyString => (acc, count, s)
  end.

(** [int(text)], base ten; [None] stands for [ValueError]. *)
Definition parse_int (text : string) : option Z :=
  match drop_underscores None (strip text) with
  | None => None
  | Some s =>
      let '(neg, s1) := take_sign s in
      let '(n, count, rest) := take_digits s1 0 0 in
      match rest with
      | EmptyString => if count =? 0 then None else Some (if neg then - n else n)
      | _ => None
      end
  end.

(** The optional exponent part: [e], an optional sign, one digit at least,
    and nothing after it. *)
Definition parse_exponent (s : string) : option Z :=
  match s with
  | EmptyString => Some 0
  | String c r =>
      if Ascii.eqb (Text.lower_char c) "e" then
        let '(neg, r1) := take_sign r in
        let '(n, count, rest) := take_digits r1 0 0 in
        match rest with
        | EmptyString => if count =? 0 then None else Some (if neg then - n else n)
        | _ => None
        end
      else None
  end.

(** [float(text)]; [None] stands for [ValueError]. *)
Definition parse_float (text : string) : option spec_float :=
  match drop_underscores None (strip text) with
  | None => None
  | Some s =>
      let '(neg, s1) := take_sign s in
      let word := Text.lower s1 in
      if String.eqb word "inf" || String.eqb word "infinity" then Some (S754_infinity neg)
      else if String.eqb word "nan" then Some S754_nan
      else
        let '(ip, icount, r1) := take_digits s1 0 0 in
        let '(m, fcount, r2) :=
          match r1 with
          | String "." r => take_digits r ip 0
          | _ => (ip, 0, r1)
          end in
        if icount + fcount =? 0 then None
        else match parse_exponent r2 with
             | Some e => Some (of_decimal neg m (e - fcount))
             | None => None
             end
  end.

End Num.

(** *** Writing a float: [repr(x)], which is also [str(x)]

    The shortest decimal that reads back as the same float (the nearest to
    it when several of that length do), then laid out in fixed notation
    when the decimal point falls in (-4, 16] and in exponent notation
    otherwise. *)

Module Repr.

Local Open Scope Z_scope.

(** The position of the decimal point of [num/den > 0]: the [k] with
    [10^(k-1) <= num/den < 10^k]. *)
Fixpoint point_up (fuel : nat) (num bound k : Z) : Z :=
  match fuel with
  | O => k
  | S f => if num <? bound then k else point_up f num (bound * 10) (k + 1)
  end.

Fixpoint point_down (fuel : nat) (scaled den k : Z) : Z :=
  match fuel with
  | O => k
  | S f => if den <=? scaled * 10 then k else point_down f (scaled * 10) den (k - 1)
  end.

Definition decimal_point (num den : Z) : Z :=
  if den <=? num then point_up 400 num (den * 10) 1
  else point_down 400 num den 0.

(** The decimal [c * 10^x] of [n] digits that reads back as the float
    [m * 2^e], if there is one: only the two neighbours of the exact
    value can. *)
Definition candidate (m : positive) (e : Z) (num den k n : Z) : option (Z * Z) :=
  let t := n - k in
  let top := num * 10 ^ Z.max t 0 in
  let bot := den * 10 ^ Z.max (- t) 0 in
  let lo := top / bot in
  let r := top mod bot in
  let hi := lo + 1 in
  let target := S754_finite false m e in
  let reads c := Num.float_eqb (Num.of_decimal false c (- t)) target in
  if r =? 0 then Some (lo, - t)
  else
    match reads lo, reads hi with
    | true, true =>
        match 2 * r ?= bot with
        | Lt => Some (lo, - t)
        | Gt => Some (hi, - t)
        | Eq => Some (if Z.even lo then lo else hi, - t)
        end
    | true, false => Some (lo, - t)
    | false, true => Some (hi, - t)
    | false, false => None
    end.

Fixpoint shortest_from (fuel : nat) (m : positive) (e : Z) (num den k n : Z) : Z * Z :=
  match fuel with
  | O => (num / den, 0)
  | S f =>
      match candidate m e num den k n with
      | Some d => d
      | None => shortest_from f m e num den k (n + 1)
      end
  end.

Fixpoint strip_zeros (fuel : nat) (c x : Z) : Z * Z :=
  match fuel with
  | O => (c, x)
  | S f => if (c mod 10 =? 0) && (0 <? c) then strip_zeros f (c / 10) (x + 1) else (c, x)
  end.

(** The digits of the shortest decimal of [m * 2^e] and the position of
    its decimal point. *)
Definition shortest (m : positive) (e : Z) : string * Z :=
  let num := Zpos m * 2 ^ Z.max e 0 in
  let den := 2 ^ Z.max (- e) 0 in
  let k := decimal_point num den in
  let '(c, x) := shortest_from 17 m e num den k 1 in
  let '(c', x') := strip_zeros 400 c x in
  let ds := Text.digits c' in
  (ds, Z.of_nat (String.length ds) + x').

Definition two_digits (n : Z) : string :=
  if n <? 10 then "0" ++ Text.digits n else Text.digits n.

Definition layout (ds : string) (point : Z) : string :=
  let len := Z.of_nat (String.length ds) in
  if (-4 <? point) && (point <=? 16) then
    if point <=? 0 then "0." ++ Text.zeros (Z.to_nat (- point)) ++ ds
    else if len <=? point then ds ++ Text.zeros (Z.to_nat (point - len)) ++ ".0"
    else substring 0 (Z.to_nat point) ds ++ "."
         ++ substring (Z.to_nat point) (Z.to_nat (len - point)) ds
  else
    let x := point - 1 in
    let mantissa :=
      match ds with
      | String d EmptyString => ds
      | String d r => String d ("." ++ r)
      | EmptyString => ds
      end in
    mantissa ++ "e" ++ (if x <? 0 then "-" else "+") ++ two_digits (Z.abs x).

Definition of_float (x : spec_float) : string :=
  match x with
  | S754_nan => "nan"
  | S754_infinity s => if s then "-inf" else "inf"
  | S754_zero s => if s then "-0.0" else "0.0"
  | S754_finite s m e =>
      let '(ds, point) := shortest m e in
      (if s then "-" else "") ++ layout ds point
  end.

End Repr.

(** [str(float(text))]; [None] when [float] raises. *)
Definition float_round_trip (text : string) : option string :=
  option_map Repr.of_float (Num.parse_float text).

(** ** Python values *)

#[local] Set Warnings "-register-all".

Inductive pyval : Type :=
| VNone
| VBool (b : bool)
| VInt (n : Z)
| VFloat (x : spec_float)
| VStr (s : string)
| VList (items : list pyval)
| VDict (fields : list (string * pyval)).

Module Py.

(** [d.get(key)] on an association list: the first binding of [key]. *)
Fixpoint lookup (key : string) (fields : list (string * pyval)) : option pyval :=
  match fields with
  | [] => None
  | (k, v) :: rest => if String.eqb k key then Some v else lookup key rest
  end.

(** Truth value of an object, as [if v:] and [not v] test it. *)
Definition truthy (v : pyval) : bool :=
  match v with
  | VNone => false
  | VBool b => b
  | VInt n => negb (Z.eqb n 0)
  | VFloat x => negb (SFeqb x (S754_zero false))
  | VStr s => negb (String.eqb s "")
  | VList items => match items with [] => false | _ => true end
  | VDict fields => match fields with [] => false | _ => true end
  end.

(** [v == s] for a string [s]: only an equal string is equal to it. *)
Definition eq_str (v : pyval) (s : string) : bool :=
  match v with
  | VStr t => String.eqb t s
  | _ => false
  end.

Definition type_name (v : pyval) : string :=
  match v with
  | VNone => "NoneType"
  | VBool _ => "bool"
  | VInt _ => "int"
  | VFloat _ => "float"
  | VStr _ => "str"
  | VList _ => "list"
  | VDict _ => "dict"
  end.

Definition hex_digit (n : nat) : ascii :=
  if (n <? 10)%nat then ascii_of_nat (48 + n) else ascii_of_nat (87 + n).

Definition escape_char (quote c : ascii) : string :=
  let n := nat_of_ascii c in
  if Ascii.eqb c "\" then "\\"
  else if Ascii.eqb c quote then String "\" (String c "")
  else if (n =? 10)%nat then "\n"
  else if (n =? 13)%nat then "\r"
  else if (n =? 9)%nat then "\t"
  else if ((n <? 32) || (n =? 127))%nat
       then String "\" (String "x" (String (hex_digit (n / 16)) (String (hex_digit (n mod 16)) "")))
  else String c "".

Fixpoint escape (quote : ascii) (s : string) : string :=
  match s with
  | EmptyString => EmptyString
  | String c r => escape_char quote c ++ escape quote r
  end.

(** [repr(s)] for a string: single quotes unless the text has a single
    quote and no double quote. *)
Definition repr_str (s : string) : string :=
  let quote : ascii :=
    if Text.contains "'" s && negb (Text.contains (String (ascii_of_nat 34) "") s)
    then ascii_of_nat 34 else "'"%char in
  String quote (escape quote s ++ String quote "").

Fixpoint repr (v : pyval) : string :=
  match v with
  | VNone => "None"
  | VBool b => if b then "True" else "False"
  | VInt n => Text.of_Z n
  | VFloat x => Repr.of_float x
  | VStr s => repr_str s
  | VList items => "[" ++ Text.join ", " (map repr items) ++ "]"
  | VDict fields =>
      "{" ++ Text.join ", " (map (fun kv => (repr_str (fst kv) ++ ": " ++ repr (snd kv))%string) fields) ++ "}"
  end.

(** [str(v)], which is what an f-string field renders. *)
Definition str (v : pyval) : string :=
  match v with
  | VStr s => s
  | _ => repr v
  end.

End Py.

(** ** Exceptions, events and computations *)

Inductive exc_class : Type :=
| BinanceAPIException
| BinanceOrderException
| ValueError
| KeyError
| TypeError
| AttributeError
| OtherException (name : string).

(** What reading [e.response] gives.  The exception classes belong to the
    SDK, so all of this is an input: the object may lack the attribute, the
    attribute may be [None], and a response object has a truth value [ok]
    and a [json()] method that returns the parsed body or raises a
    [ValueError] with some message. *)
Inductive response_attr : Type :=
| NoAttribute
| IsNone
| Response (ok : bool) (json : pyval + string).

(** A raised exception, as far as the program looks at it: its class (for
    the [except] clauses), [str(e)] and [e.response]. *)
Record pyexc : Type := mk_exc {
  exc_type : exc_class;
  exc_str : string;
  exc_response : response_attr
}.

Inductive level : Type := INFO | WARNING | ERROR.

(** The calls made on the SDK client, each with its keyword arguments in
    the order they are written. *)
Inductive request : Type :=
| futures_time
| futures_create_order (kwargs : list (string * pyval))
| futures_get_order (kwargs : list (string * pyval))
| futures_account_balance.

Inductive widget : Type := st_error | st_warning | st_success | st_json.

Inductive event : Type :=
| Log (l : level) (message : string)
| NewClient (api_key api_secret : string)
| Call (r : request)
| Show (w : widget) (content : pyval).

Inductive outcome (A : Type) : Type :=
| Ret (a : A)
| Raise (e : pyexc).

Arguments Ret {A} a.
Arguments Raise {A} e.

(** A computation: the events it emitted, oldest first, and how it ended. *)
Definition M (A : Type) : Type := list event * outcome A.

Definition ret {A} (a : A) : M A := ([], Ret a).

Definition raise {A} (e : pyexc) : M A := ([], Raise e).

Definition bind {A B} (m : M A) (k : A -> M B) : M B :=
  match m with
  | (t, Ret a) => let '(t', o) := k a in (t ++ t', o)
  | (t, Raise e) => (t, Raise e)
  end.

(** [try: body except ... as e: handler e]; a handler that does not match
    re-raises, and an exception raised inside a handler is not caught by
    the clauses of the same [try]. *)
Definition try_except {A} (body : M A) (handler : pyexc -> M A) : M A :=
  match body with
  | (t, Ret a) => (t, Ret a)
  | (t, Raise e) => let '(t', o) := handler e in (t ++ t', o)
  end.

Definition emit (ev : event) : M unit := ([ev], Ret tt).

Definition lift {A} (o : outcome A) : M A := ([], o).

Declare Scope py_scope.
Delimit Scope py_scope with py.
Notation "x <- m ;; k" := (bind m (fun x => k))
  (at level 61, m at next level, right associativity) : py_scope.
Notation "m ;; k" := (bind m (fun _ => k))
  (at level 61, right associativity) : py_scope.
Local Open Scope py_scope.

Definition events {A} (m : M A) : list event := fst m.
Definition result {A} (m : M A) : outcome A := snd m.

(** The outbound requests among some events. *)
Fixpoint requests (t : list event) : list request :=
  match t with
  | [] => []
  | Call r :: rest => r :: requests rest
  | _ :: rest => requests rest
  end.

Definition logger_info (message : string) : M unit := emit (Log INFO message).
Definition logger_warning (message : string) : M unit := emit (Log WARNING message).
Definition logger_error (message : string) : M unit := emit (Log ERROR message).

Definition class_name (c : exc_class) : string :=
  match c with
  | BinanceAPIException => "BinanceAPIException"
  | BinanceOrderException => "BinanceOrderException"
  | ValueError => "ValueError"
  | KeyError => "KeyError"
  | TypeError => "TypeError"
  | AttributeError => "AttributeError"
  | OtherException name => name
  end.

(** Exceptions raised by the interpreter itself carry no [response]. *)
Definition builtin_error (c : exc_class) (message : string) : pyexc :=
  mk_exc c message NoAttribute.

Module PyOps.

(** [v[key]] for a string key. *)
Definition getitem (v : pyval) (key : string) : M pyval :=
  match v with
  | VDict fields =>
      match Py.lookup key fields with
      | Some x => ret x
      | None => raise (builtin_error KeyError (Py.repr_str key))
      end
  | VList _ => raise (builtin_error TypeError "list indices must be integers or slices, not str")
  | VStr _ => raise (builtin_error TypeError "string indices must be integers, not 'str'")
  | _ => raise (builtin_error TypeError ("'" ++ Py.type_name v ++ "' object is not subscriptable"))
  end.

(** [key in v] for a string key. *)
Definition contains (key : string) (v : pyval) : M bool :=
  match v with
  | VDict fields => ret (match Py.lookup key fields with Some _ => true | None => false end)
  | VList items => ret (existsb (fun x => Py.eq_str x key) items)
  | VStr s => ret (Text.contains key s)
  | _ => raise (builtin_error TypeError ("argument of type '" ++ Py.type_name v ++ "' is not iterable"))
  end.

(** The items a [for] loop over [v] visits. *)
Definition iterate (v : pyval) : M (list pyval) :=
  match v with
  | VList items => ret items
  | VDict fields => ret (map (fun kv => VStr (fst kv)) fields)
  | VStr s => ret (map VStr (Text.chars s))
  | _ => raise (builtin_error TypeError ("'" ++ Py.type_name v ++ "' object is not iterable"))
  end.

(** [float(text)] and [int(text)] in a computation. *)
Definition float (text : string) : M spec_float :=
  match Num.parse_float text with
  | Some x => ret x
  | None => raise (builtin_error ValueError
                     ("could not convert string to float: " ++ Py.repr_str text))
  end.

Definition int (text : string) : M Z :=
  match Num.parse_int text with
  | Some n => ret n
  | None => raise (builtin_error ValueError
                     ("invalid literal for int() with base 10: " ++ Py.repr_str text))
  end.

(** [e.response.json() if e.response else "No response details"]. *)
Definition response_details (e : pyexc) : M pyval :=
  match exc_response e with
  | NoAttribute =>
      raise (builtin_error AttributeError
               ("'" ++ class_name (exc_type e) ++ "' object has no attribute 'response'"))
  | IsNone => ret (VStr "No response details")
  | Response ok json =>
      if ok then
        match json with
        | inl body => ret body
        | inr message => raise (builtin_error ValueError message)
        end
      else ret (VStr "No response details")
  end.

End PyOps.

(** ** The SDK client and the bot *)

(** A client handle: the REST base it was pointed at and how the exchange
    answers each call made through it. *)
Record Client : Type := mk_client {
  API_URL : string;
  respond : request -> outcome pyval
}.

(** Constants of the SDK's [Client] class. *)
Definition ORDER_TYPE_MARKET : string := "MARKET".
Definition ORDER_TYPE_LIMIT : string := "LIMIT".
Definition TIME_IN_FORCE_GTC : string := "GTC".

Definition TESTNET_BASE_URL : string := "https://testnet.binancefuture.com".

Record BasicBot : Type := mk_bot { client : Client }.

(** A call on the client: it is recorded, then the exchange answers. *)
Definition call (self : BasicBot) (r : request) : M pyval :=
  emit (Call r) ;; lift (respond (client self) r).

Definition error_only (e : pyexc) : pyval :=
  VDict [("error", VStr (exc_str e))].

(** [{"error": str(e), "details": e.response.json() if e.response else ...}] *)
Definition error_with_details (e : pyexc) : M pyval :=
  let message := exc_str e in
  details <- PyOps.response_details e ;;
  ret (VDict [("error", VStr message); ("details", details)]).

Section Construction.

(** [Client(api_key, api_secret)] of the SDK: it returns a handle or
    raises. *)
Variable Client_new : string -> string -> outcome Client.

Definition not_given (credential : option string) : bool :=
  match credential with
  | None => true
  | Some s => String.eqb s ""
  end.

Definition text_of (credential : option string) : string :=
  match credential with
  | None => ""
  | Some s => s
  end.

(** [BasicBot.__init__] *)
Definition BasicBot_init (api_key api_secret : option string) (testnet : bool) : M BasicBot :=
  if not_given api_key || not_given api_secret then
    logger_error "API Key and API Secret are required for bot initialization." ;;
    raise (builtin_error ValueError "API Key and API Secret are required.")
  else
    emit (NewClient (text_of api_key) (text_of api_secret)) ;;
    c <- lift (Client_new (text_of api_key) (text_of api_secret)) ;;
    let c := if testnet then mk_client (TESTNET_BASE_URL ++ "/fapi") (respond c) else c in
    logger_info ("Bot initialized. Testnet: " ++ Py.str (VBool testnet)) ;;
    ret (mk_bot c).

End Construction.

(** ** The five operations of the facade *)

Section Facade.

Variable self : BasicBot.

Definition get_server_time : M pyval :=
  try_except
    (server_time <- call self futures_time ;;
     shown <- PyOps.getitem server_time "serverTime" ;;
     logger_info ("Connected to Binance. Server time: " ++ Py.str shown) ;;
     ret server_time)
    (fun e =>
       match exc_type e with
       | BinanceAPIException =>
           logger_error ("API Error checking server time: " ++ exc_str e) ;;
           ret (error_only e)
       | _ =>
           logger_error ("An unexpected error occurred checking server time: " ++ exc_str e) ;;
           ret (error_only e)
       end).

Definition place_market_order (symbol side : string) (quantity : pyval) : M pyval :=
  try_except
    (logger_info ("Attempting to place MARKET order: " ++ side ++ " "
                  ++ Py.str quantity ++ " " ++ symbol) ;;
     order <- call self (futures_create_order
                [("symbol", VStr (Text.upper symbol));
                 ("side", VStr (Text.upper side));
                 ("type", VStr ORDER_TYPE_MARKET);
                 ("quantity", quantity)]) ;;
     logger_info ("Market order placed successfully: " ++ Py.str order) ;;
     ret order)
    (fun e =>
       match exc_type e with
       | BinanceAPIException =>
           logger_error ("Binance API Exception placing market order: " ++ exc_str e) ;;
           error_with_details e
       | BinanceOrderException =>
           logger_error ("Binance Order Exception placing market order: " ++ exc_str e) ;;
           error_with_details e
       | _ =>
           logger_error ("An unexpected error occurred placing market order: " ++ exc_str e) ;;
           ret (error_only e)
       end).

Definition place_limit_order (symbol side : string) (quantity price : pyval) : M pyval :=
  try_except
    (logger_info ("Attempting to place LIMIT order: " ++ side ++ " "
                  ++ Py.str quantity ++ " " ++ symbol ++ " @ " ++ Py.str price) ;;
     order <- call self (futures_create_order
                [("symbol", VStr (Text.upper symbol));
                 ("side", VStr (Text.upper side));
                 ("type", VStr ORDER_TYPE_LIMIT);
                 ("timeInForce", VStr TIME_IN_FORCE_GTC);
                 ("quantity", quantity);
                 ("price", VStr (Py.str price))]) ;;
     logger_info ("Limit order placed successfully: " ++ Py.str order) ;;
     ret order)
    (fun e =>
       match exc_type e with
       | BinanceAPIException =>
           logger_error ("Binance API Exception placing limit order: " ++ exc_str e) ;;
           error_with_details e
       | BinanceOrderException =>
           logger_error ("Binance Order Exception placing limit order: " ++ exc_str e) ;;
           error_with_details e
       | _ =>
           logger_error ("An unexpected error occurred placing limit order: " ++ exc_str e) ;;
           ret (error_only e)
       end).

Definition get_order_status (symbol : string) (order_id : pyval) : M pyval :=
  try_except
    (logger_info ("Fetching status for order ID " ++ Py.str order_id ++ " on " ++ symbol) ;;
     order_status <- call self (futures_get_order
                       [("symbol", VStr (Text.upper symbol)); ("orderId", order_id)]) ;;
     logger_info ("Order Status: " ++ Py.str order_status) ;;
     ret order_status)
    (fun e =>
       match exc_type e with
       | BinanceAPIException =>
           logger_error ("Binance API Exception fetching order status: " ++ exc_str e) ;;
           error_with_details e
       | _ =>
           logger_error ("An unexpected error occurred fetching order status: " ++ exc_str e) ;;
           ret (error_only e)
       end).

(** The [for] loop of [get_account_balance] and the two statements after
    it: the first entry whose ["asset"] equals the upper-cased request is
    returned; running off the end gives the not-found record. *)
Fixpoint scan_balances (asset : string) (balances : list pyval) : M pyval :=
  match balances with
  | balance_info :: rest =>
      code <- PyOps.getitem balance_info "asset" ;;
      if Py.eq_str code (Text.upper asset) then
        logger_info ("Balance for " ++ asset ++ ": " ++ Py.str balance_info) ;;
        ret balance_info
      else scan_balances asset rest
  | [] =>
      logger_warning ("Asset " ++ asset ++ " not found in futures account balance.") ;;
      ret (VDict [("error", VStr ("Asset " ++ asset ++ " not found."))])
  end.

Definition get_account_balance (asset : string) : M pyval :=
  try_except
    (logger_info ("Fetching account balance for asset: " ++ asset) ;;
     balances <- call self futures_account_balance ;;
     items <- PyOps.iterate balances ;;
     scan_balances asset items)
    (fun e =>
       match exc_type e with
       | BinanceAPIException =>
           logger_error ("Binance API Exception fetching account balance: " ++ exc_str e) ;;
           error_with_details e
       | _ =>
           logger_error ("An unexpected error occurred fetching account balance: " ++ exc_str e) ;;
           ret (error_only e)
       end).

End Facade.

(** ** The form handlers of the Streamlit page

    What runs when a form is submitted with a connected bot.  The
    [st.spinner] blocks only decorate the page and are left out. *)

Inductive order_kind : Type := Market | Limit.

Inductive side_choice : Type := BUY | SELL.

(** The fields of the order form; the price field exists only for a limit
    order, [price_str] being the constant ["0"] otherwise. *)
Record order_form : Type := mk_order_form {
  order_type : order_kind;
  symbol_input : string;
  side_input : side_choice;
  quantity_str : string;
  price_input : string
}.

Definition kind_name (k : order_kind) : string :=
  match k with Market => "Market" | Limit => "Limit" end.

Definition side_name (s : side_choice) : string :=
  match s with BUY => "BUY" | SELL => "SELL" end.

Definition price_str (f : order_form) : string :=
  match order_type f with
  | Limit => price_input f
  | Market => "0"
  end.

Definition show (w : widget) (content : pyval) : M unit := emit (Show w content).

Section Shell.

Variable bot_instance : BasicBot.

(** The rendering of a facade result, shared in shape by both forms. *)
Definition render (response : pyval) (failed succeeded unanswered : string)
           (log_failed log_succeeded : string) : M unit :=
  if Py.truthy response then
    is_error <- PyOps.contains "error" response ;;
    if is_error : bool then
      message <- PyOps.getitem response "error" ;;
      show st_error (VStr (failed ++ Py.str message)) ;;
      has_details <- PyOps.contains "details" response ;;
      (if has_details : bool then
         details <- PyOps.getitem response "details" ;;
         show st_json details
       else ret tt) ;;
      logger_error (log_failed ++ Py.str response)
    else
      show st_success (VStr succeeded) ;;
      show st_json response ;;
      logger_info (log_succeeded ++ Py.str response)
  else show st_warning (VStr unanswered).

(** The [if submit_button:] block of [order_form]. *)
Definition submit_order (f : order_form) : M unit :=
  let symbol := Text.upper (symbol_input f) in
  let side := side_name (side_input f) in
  try_except
    (quantity <- PyOps.float (quantity_str f) ;;
     if Num.le_zero quantity then
       show st_error (VStr "Quantity must be a positive number.")
     else
       response <-
         match order_type f with
         | Market => place_market_order bot_instance symbol side (VFloat quantity)
         | Limit =>
             price <- PyOps.float (price_str f) ;;
             if Num.le_zero price then
               show st_error (VStr "Price must be a positive number for limit orders.") ;;
               ret VNone
             else
               place_limit_order bot_instance symbol side (VFloat quantity) (VFloat price)
         end ;;
       render response
         "Order Placement Failed: "
         (kind_name (order_type f) ++ " Order Placed Successfully!")
         "No response from order placement. Check logs."
         "Streamlit UI Order Failed: "
         "Streamlit UI Order Success: ")
    (fun e =>
       match exc_type e with
       | ValueError =>
           show st_error (VStr "Invalid input for quantity or price. Please enter numbers.")
       | _ =>
           show st_error (VStr ("An unexpected error occurred: " ++ exc_str e)) ;;
           logger_error ("Unexpected error in Streamlit order form: " ++ exc_str e)
       end).

(** The [if status_submit:] block of [status_form]. *)
Definition submit_status (symbol_text order_id_str : string) : M unit :=
  let status_symbol := Text.upper symbol_text in
  if negb (Py.truthy (VStr status_symbol)) || negb (Py.truthy (VStr order_id_str)) then
    show st_warning (VStr "Please enter Symbol and Order ID.")
  else
    try_except
      (order_id <- PyOps.int order_id_str ;;
       status_response <- get_order_status bot_instance status_symbol (VInt order_id) ;;
       render status_response
         "Failed to get order status: "
         "Order Status Retrieved:"
         "No response when fetching order status. Check logs."
         "Streamlit UI Get Status Failed: "
         "Streamlit UI Get Status Success: ")
      (fun e =>
         match exc_type e with
         | ValueError => show st_error (VStr "Invalid Order ID. Please enter a number.")
         | _ =>
             show st_error (VStr ("An unexpected error occurred: " ++ exc_str e)) ;;
             logger_error ("Unexpected error in Streamlit status form: " ++ exc_str e)
         end).

End Shell.

(** ** Vocabulary of the properties *)

(** An invocation of one of the five operations. *)
Inductive operation : Type :=
| op_get_server_time
| op_place_market_order (symbol side : string) (quantity : pyval)
| op_place_limit_order (symbol side : string) (quantity price : pyval)
| op_get_order_status (symbol : string) (order_id : pyval)
| op_get_account_balance (asset : string).

Definition run (self : BasicBot) (op : operation) : M pyval :=
  match op with
  | op_get_server_time => get_server_time self
  | op_place_market_order symbol side quantity => place_market_order self symbol side quantity
  | op_place_limit_order symbol side quantity price =>
      place_limit_order self symbol side quantity price
  | op_get_order_status symbol order_id => get_order_status self symbol order_id
  | op_get_account_balance asset => get_account_balance self asset
  end.

(** The request an invocation sends to the exchange. *)
Definition request_of (op : operation) : request :=
  match op with
  | op_get_server_time => futures_time
  | op_place_market_order symbol side quantity =>
      futures_create_order
        [("symbol", VStr (Text.upper symbol)); ("side", VStr (Text.upper side));
         ("type", VStr "MARKET"); ("quantity", quantity)]
  | op_place_limit_order symbol side quantity price =>
      futures_create_order
        [("symbol", VStr (Text.upper symbol)); ("side", VStr (Text.upper side));
         ("type", VStr "LIMIT"); ("timeInForce", VStr "GTC");
         ("quantity", quantity); ("price", VStr (Py.str price))]
  | op_get_order_status symbol order_id =>
      futures_get_order [("symbol", VStr (Text.upper symbol)); ("orderId", order_id)]
  | op_get_account_balance _ => futures_account_balance
  end.

(** The exchange answers the request of [op] with [o]. *)
Definition answers (self : BasicBot) (op : operation) (o : outcome pyval) : Prop :=
  respond (client self) (request_of op) = o.

(** A bot whose client gives the same answer to every call. *)
Definition bot_answering (o : outcome pyval) : BasicBot :=
  mk_bot (mk_client (TESTNET_BASE_URL ++ "/fapi") (fun _ => o)).

(** [key in v] for a result record. *)
Definition has_key (key : string) (v : pyval) : bool :=
  match v with
  | VDict fields => match Py.lookup key fields with Some _ => true | None => false end
  | _ => false
  end.

(** The [except] clauses that build a record with ["details"], per
    operation and exception class, read off the five handlers. *)
Definition attaches_details (op : operation) (c : exc_class) : bool :=
  match op, c with
  | op_get_server_time, _ => false
  | (op_place_market_order _ _ _ | op_place_limit_order _ _ _ _),
    (BinanceAPIException | BinanceOrderException) => true
  | (op_get_order_status _ _ | op_get_account_balance _), BinanceAPIException => true
  | _, _ => false
  end.

(** [if e.response] takes the else branch: the attribute is [None] or a
    response object that is false. *)
Definition response_is_false (e : pyexc) : Prop :=
  exc_response e = IsNone \/ exists json, exc_response e = Response false json.

(** Evaluating the handler's expression on [e.response] cannot raise. *)
Definition response_readable (e : pyexc) : Prop :=
  response_is_false e \/ exists body, exc_response e = Response true (inl body).

Definition with_details (e : pyexc) (details : pyval) : pyval :=
  VDict [("error", VStr (exc_str e)); ("details", details)].

Definition not_found (asset : string) : pyval :=
  VDict [("error", VStr ("Asset " ++ asset ++ " not found."))].

(** An entry of the balance list that has an ["asset"] field. *)
Definition has_asset (entry : pyval) : Prop :=
  exists fields code, entry = VDict fields /\ Py.lookup "asset" fields = Some code.

(** The entry's asset code is the upper-cased request. *)
Definition holds (asset : string) (entry : pyval) : bool :=
  match entry with
  | VDict fields =>
      match Py.lookup "asset" fields with
      | Some code => Py.eq_str code (Text.upper asset)
      | None => false
      end
  | _ => false
  end.


(** A number was read and it is not positive. *)
Definition not_positive (text : string) : Prop :=
  exists x, Num.parse_float text = Some x /\ Num.le_zero x = true.


(** *** Sample data *)

Definition qty_0_001 : pyval := VFloat (Num.of_decimal false 1 (-3)).

(** An order exception as the SDK builds it: a code and a message, and no
    [response] attribute. *)
Definition order_rejected : pyexc :=
  mk_exc BinanceOrderException
    "BinanceOrderException(code=-2010): Order would immediately trigger."
    NoAttribute.

(** API exceptions: one whose response is [None], one whose response is
    true and has a JSON body. *)
Definition api_error_bare : pyexc :=
  mk_exc BinanceAPIException "APIError(code=-1021): Timestamp outside recvWindow." IsNone.



Definition usdt_record : pyval :=
  VDict [("asset", VStr "USDT"); ("balance", VStr "100.0")].


Definition limit_form_20000_50 : order_form :=
  mk_order_form Limit "btcusdt" BUY "0.001" "20000.50".

Definition order_ack : pyval :=
  VDict [("orderId", VInt 42); ("symbol", VStr "BTCUSDT"); ("status", VStr "NEW")].

Definition bot_bare : BasicBot := bot_answering (Raise api_error_bare).


Definition bot_ack : BasicBot := bot_answering (Ret order_ack).

Definition bot_usdt : BasicBot := bot_answering (Ret (VList [usdt_record])).


Definition limit_20000_50 : operation :=
  op_place_limit_order "btcusdt" "buy" qty_0_001 (VStr "20000.50").

(** Exceptions raised by the body of an operation itself, on a payload of
    an unexpected shape: none of them reaches a handler that reads
    [response]. *)
Definition raised_by_builtin (e : pyexc) : Prop :=
  exc_type e = KeyError \/ exc_type e = TypeError.

(** A computation that sends nothing to the exchange. *)
Definition silent {A} (m : M A) : Prop := requests (events m) = [].

(** *** The statements of the specification that the code does not meet,
    as they are worded *)

(** Without a response body the failure record has no ["details"] key. *)
Definition details_omitted_without_body : Prop :=
  forall self op e,
    answers self op (Raise e) -> exc_response e = IsNone ->
    exists r, result (run self op) = Ret r /\ has_key "details" r = false.



(** A successful transport call is returned as it is, for every operation. *)
Definition success_is_passed_through : Prop :=
  forall self op payload,
    answers self op (Ret payload) -> result (run self op) = Ret payload.



(** ** The rest of the page: connection and balances

    The sidebar's connect button and the two handlers of the balance tab.
    They write to [st.session_state], to the sidebar and to [st.metric], so
    a computation of the page threads the session state and emits page
    events; what it runs of the program above is lifted as it is. *)

Module SessionState.

Record t : Type := mk {
  bot_instance : option BasicBot;
  connected : bool;
  api_key : string;
  api_secret : string
}.

(** The state a fresh session starts in, given the two environment
    variables (the empty text when unset). *)
Definition initial (env_key env_secret : string) : t :=
  mk None false env_key env_secret.

End SessionState.

Inductive page_event : Type :=
| Main (e : event)
| Sidebar (w : widget) (content : pyval)
| Metric (label : string) (value : pyval).

(** A computation of the page: from a session state to the page events it
    emitted, the session state it left and how it ended.  The state keeps
    what was assigned before an exception was raised. *)
Definition P (A : Type) : Type :=
  SessionState.t -> list page_event * SessionState.t * outcome A.

Module Page.

Definition ret {A} (a : A) : P A := fun s => ([], s, Ret a).

Definition raise {A} (e : pyexc) : P A := fun s => ([], s, Raise e).

Definition bind {A B} (m : P A) (k : A -> P B) : P B :=
  fun s =>
    match m s with
    | (t, s', Ret a) => let '(t', s'', o) := k a s' in (t ++ t', s'', o)
    | (t, s', Raise e) => (t, s', Raise e)
    end.

Definition try_except {A} (body : P A) (handler : pyexc -> P A) : P A :=
  fun s =>
    match body s with
    | (t, s', Ret a) => (t, s', Ret a)
    | (t, s', Raise e) => let '(t', s'', o) := handler e s' in (t ++ t', s'', o)
    end.

(** A computation of the program inside the page. *)
Definition lift {A} (m : M A) : P A :=
  fun s => (map Main (events m), s, result m).

Definition emit (ev : page_event) : P unit := fun s => ([ev], s, Ret tt).

Definition modify (f : SessionState.t -> SessionState.t) : P unit :=
  fun s => ([], f s, Ret tt).

Definition trace {A} (r : list page_event * SessionState.t * outcome A) : list page_event :=
  fst (fst r).

Definition state {A} (r : list page_event * SessionState.t * outcome A) : SessionState.t :=
  snd (fst r).

Definition outcome_of {A} (r : list page_event * SessionState.t * outcome A) : outcome A :=
  snd r.

(** The requests to the exchange among some page events. *)
Fixpoint requests (t : list page_event) : list request :=
  match t with
  | [] => []
  | Main (Call r) :: rest => r :: requests rest
  | _ :: rest => requests rest
  end.

(** The attempts to build an SDK client among some page events. *)
Fixpoint clients (t : list page_event) : list (string * string) :=
  match t with
  | [] => []
  | Main (NewClient key secret) :: rest => (key, secret) :: clients rest
  | _ :: rest => clients rest
  end.

End Page.

Declare Scope page_scope.
Delimit Scope page_scope with page.
Notation "x <- m ;; k" := (Page.bind m (fun x => k))
  (at level 61, m at next level, right associativity) : page_scope.
Notation "m ;; k" := (Page.bind m (fun _ => k))
  (at level 61, right associativity) : page_scope.

Module PyMore.

(** [v.get(key, default)]: a method of [dict] only. *)
Definition get (v : pyval) (key : string) (default : pyval) : M pyval :=
  match v with
  | VDict fields =>
      ret (match Py.lookup key fields with Some x => x | None => default end)
  | _ => raise (builtin_error AttributeError
                  ("'" ++ Py.type_name v ++ "' object has no attribute 'get'"))
  end.

(** [float(v)] for a value: a string is read, a number is converted, an
    [int] beyond the range of floats raises [OverflowError]. *)
Definition float (v : pyval) : M spec_float :=
  match v with
  | VStr s => PyOps.float s
  | VFloat x => ret x
  | VBool b => ret (if b then Num.of_decimal false 1 0 else S754_zero false)
  | VInt n =>
      match Num.of_decimal (n <? 0)%Z (Z.abs n) 0 with
      | S754_infinity _ =>
          raise (builtin_error (OtherException "OverflowError")
                   "int too large to convert to float")
      | x => ret x
      end
  | _ => raise (builtin_error TypeError
                  ("float() argument must be a string or a real number, not '"
                   ++ Py.type_name v ++ "'"))
  end.

(** [f"{x:.<places>f}"]: the exact value of the float rounded to that many
    decimals, ties to even, the sign kept even when the digits are zero. *)
Definition format_fixed (places : nat) (x : spec_float) : string :=
  let point (ds : string) : string :=
    let padded := (Text.zeros (S places - String.length ds) ++ ds)%string in
    let whole := String.length padded - places in
    match places with
    | O => padded
    | _ => (substring 0 whole padded ++ "." ++ substring whole places padded)%string
    end in
  match x with
  | S754_nan => "nan"
  | S754_infinity s => if s then "-inf" else "inf"
  | S754_zero s => (if s then "-" else "") ++ point "0"
  | S754_finite s m e =>
      let num := (Zpos m * 2 ^ Z.max e 0 * 10 ^ Z.of_nat places)%Z in
      let den := (2 ^ Z.max (- e) 0)%Z in
      let q := (num / den)%Z in
      let r := (num mod den)%Z in
      let rounded :=
        match (2 * r ?= den)%Z with
        | Lt => q
        | Gt => (q + 1)%Z
        | Eq => if Z.even q then q else (q + 1)%Z
        end in
      (if s then "-" else "") ++ point (Text.digits rounded)
  end.

End PyMore.

Definition sidebar (w : widget) (content : pyval) : P unit :=
  Page.emit (Sidebar w content).

Definition st_metric (label : string) (value : pyval) : P unit :=
  Page.emit (Metric label value).

(** [if st.session_state.bot_instance and st.session_state.connected]: what
    decides whether the tabs are drawn (a bot object is always true). *)
Definition main_area_shown (s : SessionState.t) : bool :=
  match SessionState.bot_instance s with
  | Some _ => SessionState.connected s
  | None => false
  end.

Section Connection.

Variable Client_new : string -> string -> outcome Client.

Local Open Scope page_scope.

(** The block under [if st.sidebar.button("Connect to Binance Testnet"):]. *)
Definition connect (api_key_input api_secret_input : string) : P unit :=
  if Py.truthy (VStr api_key_input) && Py.truthy (VStr api_secret_input) then
    Page.try_except
      (bot <- Page.lift (BasicBot_init Client_new (Some api_key_input)
                           (Some api_secret_input) true) ;;
       Page.modify (fun s => SessionState.mk (Some bot) (SessionState.connected s)
                               (SessionState.api_key s) (SessionState.api_secret s)) ;;
       Page.modify (fun s => SessionState.mk (SessionState.bot_instance s)
                               (SessionState.connected s)
                               api_key_input (SessionState.api_secret s)) ;;
       Page.modify (fun s => SessionState.mk (SessionState.bot_instance s)
                               (SessionState.connected s)
                               (SessionState.api_key s) api_secret_input) ;;
       server_time_response <- Page.lift (get_server_time bot) ;;
       answered <-
         (if Py.truthy server_time_response then
            is_error <- Page.lift (PyOps.contains "error" server_time_response) ;;
            Page.ret (negb is_error)
          else Page.ret false) ;;
       if answered : bool then
         Page.modify (fun s => SessionState.mk (SessionState.bot_instance s) true
                                 (SessionState.api_key s) (SessionState.api_secret s)) ;;
         shown <- Page.lift (PyMore.get server_time_response "serverTime" VNone) ;;
         sidebar st_success (VStr ("Connected! Server Time: " ++ Py.str shown)) ;;
         Page.lift (logger_info "Successfully connected via Streamlit UI.")
       else
         Page.modify (fun s => SessionState.mk (SessionState.bot_instance s) false
                                 (SessionState.api_key s) (SessionState.api_secret s)) ;;
         error_msg <- Page.lift (PyMore.get server_time_response "error"
                                   (VStr "Unknown connection error.")) ;;
         sidebar st_error (VStr ("Connection Failed: " ++ Py.str error_msg)) ;;
         Page.lift (logger_error ("Streamlit UI connection failed: " ++ Py.str error_msg)))
      (fun e =>
         match exc_type e with
         | ValueError =>
             sidebar st_error (VStr ("Initialization Error: " ++ exc_str e)) ;;
             Page.lift (logger_error ("Streamlit UI bot initialization error: " ++ exc_str e))
         | _ =>
             sidebar st_error (VStr ("An unexpected error occurred: " ++ exc_str e)) ;;
             Page.lift (logger_error ("Unexpected error during Streamlit connection: "
                                      ++ exc_str e))
         end)
  else sidebar st_warning (VStr "Please enter both API Key and Secret.").

End Connection.

Section Balances.

Variable bot_instance : BasicBot.

Local Open Scope page_scope.

(** The three metrics, the payload and the log record of a balance that
    was found; [places] is 4 for USDT and 8 for another asset. *)
Definition show_balance (balance_response : pyval) (places : nat) (unit_name : string)
           (log_succeeded : string) : P unit :=
  asset <- Page.lift (PyMore.get balance_response "asset" VNone) ;;
  st_metric "Asset" asset ;;
  total <- Page.lift (PyMore.get balance_response "balance" (VInt 0)) ;;
  total <- Page.lift (PyMore.float total) ;;
  st_metric "Total Balance" (VStr (PyMore.format_fixed places total ++ " " ++ unit_name)) ;;
  available <- Page.lift (PyMore.get balance_response "availableBalance" (VInt 0)) ;;
  available <- Page.lift (PyMore.float available) ;;
  st_metric "Available Balance"
    (VStr (PyMore.format_fixed places available ++ " " ++ unit_name)) ;;
  Page.lift (show st_json balance_response) ;;
  Page.lift (logger_info (log_succeeded ++ Py.str balance_response)).

(** The block under [if st.button("Fetch USDT Balance"):]; nothing in it
    catches an exception. *)
Definition fetch_usdt_balance : P unit :=
  balance_response <- Page.lift (get_account_balance bot_instance "USDT") ;;
  if Py.truthy balance_response then
    is_error <- Page.lift (PyOps.contains "error" balance_response) ;;
    if is_error : bool then
      message <- Page.lift (PyOps.getitem balance_response "error") ;;
      Page.lift (show st_error (VStr ("Failed to fetch balance: " ++ Py.str message))) ;;
      has_details <- Page.lift (PyOps.contains "details" balance_response) ;;
      (if has_details : bool then
         details <- Page.lift (PyOps.getitem balance_response "details") ;;
         Page.lift (show st_json details)
       else Page.ret tt) ;;
      Page.lift (logger_error ("Streamlit UI Get Balance Failed: " ++ Py.str balance_response))
    else
      Page.lift (show st_success (VStr "USDT Balance Retrieved:")) ;;
      show_balance balance_response 4 "USDT" "Streamlit UI Get Balance Success: "
  else Page.lift (show st_warning (VStr "No response when fetching balance. Check logs.")).

(** The block under [if fetch_other_asset_button:] of
    [other_asset_balance_form]. *)
Definition fetch_other_balance (asset_input : string) : P unit :=
  let other_asset_symbol := Text.upper asset_input in
  if negb (Py.truthy (VStr other_asset_symbol)) then
    Page.lift (show st_warning (VStr "Please enter an asset symbol."))
  else
    balance_response <- Page.lift (get_account_balance bot_instance other_asset_symbol) ;;
    if Py.truthy balance_response then
      is_error <- Page.lift (PyOps.contains "error" balance_response) ;;
      if is_error : bool then
        message <- Page.lift (PyOps.getitem balance_response "error") ;;
        Page.lift (show st_error (VStr ("Failed to fetch balance for " ++ other_asset_symbol
                                        ++ ": " ++ Py.str message))) ;;
        has_details <- Page.lift (PyOps.contains "details" balance_response) ;;
        wanted <-
          (if has_details : bool then
             message <- Page.lift (PyOps.getitem balance_response "error") ;;
             Page.ret (negb (Py.eq_str message
                               ("Asset " ++ other_asset_symbol ++ " not found.")))
           else Page.ret false) ;;
        (if wanted : bool then
           details <- Page.lift (PyOps.getitem balance_response "details") ;;
           Page.lift (show st_json details)
         else Page.ret tt) ;;
        Page.lift (logger_error ("Streamlit UI Get Balance Failed for " ++ other_asset_symbol
                                 ++ ": " ++ Py.str balance_response))
      else
        Page.lift (show st_success (VStr (other_asset_symbol ++ " Balance Retrieved:"))) ;;
        show_balance balance_response 8 other_asset_symbol
          ("Streamlit UI Get Balance Success for " ++ other_asset_symbol ++ ": ")
    else
      Page.lift (show st_warning
                   (VStr ("No response when fetching " ++ other_asset_symbol
                          ++ " balance. Check logs."))).

End Balances.

(** * Properties *)

(** ** Sample evaluations of the builtins *)

Example upper_btcusdt : Text.upper "btcUsdt_1" = "BTCUSDT_1".
Proof. reflexivity. Qed.

Example of_Z_samples :
  (Text.of_Z 0, Text.of_Z 7, Text.of_Z 1024, Text.of_Z (-305)) = ("0", "7", "1024", "-305").
Proof. reflexivity. Qed.

Example parse_int_samples :
  map Num.parse_int [" 42 "; "-5"; "+1_000"; "007"; ""; "12a"; "1__0"; "4.0"; "-"]
  = [Some 42; Some (-5); Some 1000; Some 7; None; None; None; None; None]%Z.
Proof. reflexivity. Qed.

Example parse_float_samples :
  map Num.parse_float ["abc"; ""; "."; "1e"; "1_.5"; "0"; "-0.0"; "0.5"; " 2. "; ".25"; "1e3"; "nan"; "-Inf"]
  = [None; None; None; None; None;
     Some (S754_zero false); Some (S754_zero true);
     Some (S754_finite false 4503599627370496 (-53));
     Some (S754_finite false 4503599627370496 (-51));
     Some (S754_finite false 4503599627370496 (-54));
     Some (S754_finite false 8796093022208000 (-43));
     Some S754_nan; Some (S754_infinity true)]%Z.
Proof. vm_compute. reflexivity. Qed.

Example float_round_trip_samples :
  map float_round_trip
    ["20000.50"; "0.001"; "20000"; "1e16"; "1e15"; "0.0001"; "0.00001"; "0.1";
     "123456789.123456789"; "1.5e-7"; "-2.50"; "0.30000000000000004"; "5e-324";
     "9007199254740993"; "1e400"; "x"]
  = [Some "20000.5"; Some "0.001"; Some "20000.0"; Some "1e+16";
     Some "1000000000000000.0"; Some "0.0001"; Some "1e-05"; Some "0.1";
     Some "123456789.12345679"; Some "1.5e-07"; Some "-2.5";
     Some "0.30000000000000004"; Some "5e-324"; Some "9007199254740992.0";
     Some "inf"; None].
Proof. vm_compute. reflexivity. Qed.

Example repr_order :
  Py.repr (VDict [("orderId", VInt 42); ("symbol", VStr "BTCUSDT");
                  ("fills", VList [VFloat (S754_zero false); VNone; VBool true])])
  = "{'orderId': 42, 'symbol': 'BTCUSDT', 'fills': [0.0, None, True]}".
Proof. vm_compute. reflexivity. Qed.

(** ** Sample runs of the program *)

Example limit_order_run :
  submit_order bot_ack limit_form_20000_50
  = ([Log INFO "Attempting to place LIMIT order: BUY 0.001 BTCUSDT @ 20000.5";
      Call (futures_create_order
              [("symbol", VStr "BTCUSDT"); ("side", VStr "BUY");
               ("type", VStr "LIMIT"); ("timeInForce", VStr "GTC");
               ("quantity", qty_0_001); ("price", VStr "20000.5")]);
      Log INFO "Limit order placed successfully: {'orderId': 42, 'symbol': 'BTCUSDT', 'status': 'NEW'}";
      Show st_success (VStr "Limit Order Placed Successfully!");
      Show st_json order_ack;
      Log INFO "Streamlit UI Order Success: {'orderId': 42, 'symbol': 'BTCUSDT', 'status': 'NEW'}"],
     Ret tt).
Proof. vm_compute. reflexivity. Qed.

Example balance_not_found_run :
  get_account_balance bot_usdt "zzz"
  = ([Log INFO "Fetching account balance for asset: zzz";
      Call futures_account_balance;
      Log WARNING "Asset zzz not found in futures account balance."],
     Ret (VDict [("error", VStr "Asset zzz not found.")])).
Proof. vm_compute. reflexivity. Qed.

Example server_time_without_key_run :
  get_server_time (bot_answering (Ret (VDict [("time", VInt 1)])))
  = ([Call futures_time;
      Log ERROR "An unexpected error occurred checking server time: 'serverTime'"],
     Ret (VDict [("error", VStr "'serverTime'")])).
Proof. vm_compute. reflexivity. Qed.

(** ** Computations *)

Lemma events_bind {A B} (m : M A) (k : A -> M B) :
  events (bind m k)
  = events m ++ match result m with Ret a => events (k a) | Raise _ => [] end.
Proof.
  destruct m as [t [a | e]]; unfold bind, events, result; simpl.
  - destruct (k a); reflexivity.
  - now rewrite app_nil_r.
Qed.

Lemma result_bind {A B} (m : M A) (k : A -> M B) :
  result (bind m k)
  = match result m with Ret a => result (k a) | Raise e => Raise e end.
Proof.
  destruct m as [t [a | e]]; unfold bind, result; simpl; [destruct (k a) |]; reflexivity.
Qed.

Lemma events_try {A} (body : M A) (handler : pyexc -> M A) :
  events (try_except body handler)
  = events body ++ match result body with Ret _ => [] | Raise e => events (handler e) end.
Proof.
  destruct body as [t [a | e]]; unfold try_except, events, result; simpl.
  - now rewrite app_nil_r.
  - destruct (handler e); reflexivity.
Qed.

Lemma result_try {A} (body : M A) (handler : pyexc -> M A) :
  result (try_except body handler)
  = match result body with Ret a => Ret a | Raise e => result (handler e) end.
Proof.
  destruct body as [t [a | e]]; unfold try_except, result; simpl;
    [| destruct (handler e)]; reflexivity.
Qed.

Lemma requests_app (t u : list event) : requests (t ++ u) = requests t ++ requests u.
Proof.
  induction t as [| ev t IH]; simpl; [reflexivity |].
  destruct ev; simpl; now rewrite IH.
Qed.

Lemma silent_ret {A} (a : A) : silent (ret a).
Proof. reflexivity. Qed.

Lemma silent_raise {A} (e : pyexc) : silent (@raise A e).
Proof. reflexivity. Qed.

Lemma silent_show w v : silent (show w v).
Proof. reflexivity. Qed.

Lemma silent_log l s : silent (emit (Log l s)).
Proof. reflexivity. Qed.

Lemma silent_bind {A B} (m : M A) (k : A -> M B) :
  silent m -> (forall a, silent (k a)) -> silent (bind m k).
Proof.
  unfold silent; intros Hm Hk.
  rewrite events_bind, requests_app, Hm.
  destruct (result m); simpl; auto.
Qed.

Lemma silent_try {A} (body : M A) (handler : pyexc -> M A) :
  silent body -> (forall e, silent (handler e)) -> silent (try_except body handler).
Proof.
  unfold silent; intros Hb Hh.
  rewrite events_try, requests_app, Hb.
  destruct (result body); simpl; auto.
Qed.

Lemma silent_getitem v key : silent (PyOps.getitem v key).
Proof.
  destruct v; try reflexivity.
  unfold PyOps.getitem; destruct (Py.lookup key fields); reflexivity.
Qed.

Lemma silent_contains key v : silent (PyOps.contains key v).
Proof. destruct v; reflexivity. Qed.

Lemma silent_iterate v : silent (PyOps.iterate v).
Proof. destruct v; reflexivity. Qed.

Lemma silent_response_details e : silent (PyOps.response_details e).
Proof.
  unfold PyOps.response_details.
  destruct (exc_response e) as [| | [|] [body | message]]; reflexivity.
Qed.

Lemma silent_error_with_details e : silent (error_with_details e).
Proof.
  apply silent_bind; [apply silent_response_details | intros; apply silent_ret].
Qed.

Create HintDb quiet.

#[local] Hint Resolve silent_ret silent_raise silent_show silent_log silent_getitem
  silent_contains silent_iterate silent_response_details silent_error_with_details : quiet.

Ltac quiet :=
  repeat first
    [ apply silent_bind; [| intros ]
    | apply silent_try; [| intros ]
    | progress (unfold logger_info, logger_warning, logger_error)
    | solve [ auto with quiet ]
    | match goal with
      | |- silent (if ?b then _ else _) => destruct b
      | |- silent (match exc_type ?e with _ => _ end) => destruct (exc_type e)
      end ].

Lemma silent_render response a b c d e : silent (render response a b c d e).
Proof. unfold render. quiet. Qed.

Lemma silent_scan asset items : silent (scan_balances asset items).
Proof.
  induction items as [| entry rest IH]; cbn [scan_balances].
  - quiet.
  - apply silent_bind; [auto with quiet | intros code].
    destruct (Py.eq_str code (Text.upper asset)).
    + quiet.
    + exact IH.
Qed.

(** ** What every invocation does *)

Lemma body_of_call self r :
  call self r = ([Call r], respond (client self) r).
Proof.
  unfold call, bind, emit, lift; simpl. reflexivity.
Qed.

Lemma requests_bind {A B} (m : M A) (k : A -> M B) :
  requests (events (bind m k))
  = requests (events m)
    ++ match result m with Ret a => requests (events (k a)) | Raise _ => [] end.
Proof.
  rewrite events_bind, requests_app. now destruct (result m).
Qed.

Lemma requests_call_then {A} self r (k : pyval -> M A) :
  (forall v, silent (k v)) -> requests (events (bind (call self r) k)) = [r].
Proof.
  intros Hk. rewrite requests_bind, body_of_call; simpl.
  destruct (respond (client self) r); [rewrite Hk |]; reflexivity.
Qed.

Lemma requests_log_then {A} l s (m : M A) :
  requests (events (bind (emit (Log l s)) (fun _ => m))) = requests (events m).
Proof. rewrite requests_bind. reflexivity. Qed.

Lemma requests_try_silent {A} (body : M A) (handler : pyexc -> M A) :
  (forall e, silent (handler e)) ->
  requests (events (try_except body handler)) = requests (events body).
Proof.
  intros Hh. rewrite events_try, requests_app.
  destruct (result body); [| rewrite Hh]; now rewrite app_nil_r.
Qed.

#[local] Hint Resolve silent_scan silent_render : quiet.

(** Every invocation sends exactly one request, whatever the answer. *)
Lemma run_sends_one_request self op :
  requests (events (run self op)) = [request_of op].
Proof.
  destruct op; unfold run, get_server_time, place_market_order, place_limit_order,
    get_order_status, get_account_balance;
    (rewrite requests_try_silent; [| intros; quiet]);
    unfold logger_info at 1; rewrite ?requests_log_then;
    apply requests_call_then; intros; quiet.
Qed.

(** The record an invocation returns when the exchange answers with an
    exception: the handler chosen by the class of the exception. *)
Lemma run_on_exception self op e :
  answers self op (Raise e) ->
  result (run self op)
  = if attaches_details op (exc_type e) then result (error_with_details e)
    else Ret (error_only e).
Proof.
  unfold answers; intros H.
  destruct op; unfold request_of in H;
    unfold run, get_server_time, place_market_order, place_limit_order,
      get_order_status, get_account_balance;
    rewrite result_try; repeat (rewrite result_bind; cbn [result logger_info emit snd]);
    rewrite body_of_call; cbn [result snd];
    unfold ORDER_TYPE_MARKET, ORDER_TYPE_LIMIT, TIME_IN_FORCE_GTC; rewrite H;
    unfold attaches_details; destruct (exc_type e);
    rewrite ?result_bind; reflexivity.
Qed.

Lemma details_when_false e :
  response_is_false e ->
  result (error_with_details e) = Ret (with_details e (VStr "No response details")).
Proof.
  unfold error_with_details, PyOps.response_details.
  intros [H | [json H]]; rewrite H; reflexivity.
Qed.

Lemma details_when_body e body :
  exc_response e = Response true (inl body) ->
  result (error_with_details e) = Ret (with_details e body).
Proof.
  unfold error_with_details, PyOps.response_details.
  intros H; rewrite H; reflexivity.
Qed.

Lemma details_when_readable e :
  response_readable e -> exists r, result (error_with_details e) = Ret r.
Proof.
  intros [H | [body H]]; eexists;
    [apply details_when_false | apply details_when_body]; eassumption.
Qed.

(** The handlers of the five operations end in a record for every
    exception whose [response] can be read. *)
Lemma handled_when_readable op e :
  response_readable e ->
  exists r, (if attaches_details op (exc_type e) then result (error_with_details e)
             else Ret (error_only e)) = Ret r.
Proof.
  intros H. destruct (attaches_details op (exc_type e)).
  - now apply details_when_readable.
  - now eexists.
Qed.

(** ** Successful answers *)

Ltac run_body H :=
  unfold answers, request_of in H;
  unfold run, get_server_time, place_market_order, place_limit_order,
    get_order_status, get_account_balance;
  rewrite result_try; repeat (rewrite result_bind; cbn [result logger_info emit snd]);
  rewrite body_of_call; cbn [result snd];
  unfold ORDER_TYPE_MARKET, ORDER_TYPE_LIMIT, TIME_IN_FORCE_GTC; rewrite H.

Lemma orders_return_payload self op payload :
  answers self op (Ret payload) ->
  match op with
  | op_get_server_time | op_get_account_balance _ => True
  | _ => result (run self op) = Ret payload
  end.
Proof.
  intros H. destruct op; try exact I; run_body H; reflexivity.
Qed.

Lemma server_time_returns_payload self payload :
  answers self op_get_server_time (Ret payload) ->
  has_key "serverTime" payload = true ->
  result (get_server_time self) = Ret payload.
Proof.
  intros H Hk. change (get_server_time self) with (run self op_get_server_time).
  run_body H. destruct payload; try discriminate Hk.
  unfold has_key in Hk. unfold PyOps.getitem.
  destruct (Py.lookup "serverTime" fields); [reflexivity | discriminate Hk].
Qed.

(** The loop over a list whose entries all have an ["asset"] field ends at
    the first entry holding the requested asset. *)
Lemma scan_finds_first asset items :
  Forall has_asset items ->
  result (scan_balances asset items)
  = Ret match find (holds asset) items with
        | Some hit => hit
        | None => not_found asset
        end.
Proof.
  induction 1 as [| entry rest [fields [code [-> Hcode]]] _ IH]; [reflexivity |].
  cbn [scan_balances find holds]. rewrite result_bind.
  unfold PyOps.getitem. rewrite Hcode. cbn [result ret snd].
  destruct (Py.eq_str code (Text.upper asset)); [reflexivity | exact IH].
Qed.

Lemma balance_scans_payload self asset items :
  answers self (op_get_account_balance asset) (Ret (VList items)) ->
  Forall has_asset items ->
  result (get_account_balance self asset)
  = Ret match find (holds asset) items with
        | Some hit => hit
        | None => not_found asset
        end.
Proof.
  intros H Hitems.
  change (get_account_balance self asset) with (run self (op_get_account_balance asset)).
  run_body H. cbn [PyOps.iterate]. rewrite result_bind. cbn [ret result snd].
  now rewrite scan_finds_first.
Qed.

Lemma getitem_raises v key e :
  result (PyOps.getitem v key) = Raise e -> raised_by_builtin e.
Proof.
  unfold PyOps.getitem, raised_by_builtin.
  destruct v; try destruct (Py.lookup key fields);
    cbn; intros H; inversion H; subst; cbn; auto.
Qed.

Lemma scan_raises asset items e :
  result (scan_balances asset items) = Raise e -> raised_by_builtin e.
Proof.
  induction items as [| entry rest IH]; [discriminate |].
  cbn [scan_balances]. rewrite result_bind.
  destruct (result (PyOps.getitem entry "asset")) as [code | e'] eqn:Hget.
  - destruct (Py.eq_str code (Text.upper asset)); [discriminate | exact IH].
  - intros H; inversion H; subst. eapply getitem_raises; eassumption.
Qed.

(** With an answer that is a payload, or an exception whose [response] can
    be read, every operation returns a record. *)
Lemma run_returns_when_readable self op o :
  answers self op o ->
  match o with Ret _ => True | Raise e => response_readable e end ->
  exists r, result (run self op) = Ret r.
Proof.
  intros H Hsafe. destruct o as [payload | e].
  - destruct op;
      try (eexists; exact (orders_return_payload _ _ _ H)).
    + run_body H. rewrite result_bind.
      destruct (result (PyOps.getitem payload "serverTime")) as [t | e'] eqn:Hget.
      * now eexists.
      * destruct (getitem_raises _ _ _ Hget) as [-> | ->]; now eexists.
    + run_body H. rewrite result_bind.
      destruct (result (PyOps.iterate payload)) as [items | e'] eqn:Hit.
      * destruct (result (scan_balances asset items)) as [r | e'] eqn:Hscan;
          [now eexists |].
        destruct (scan_raises _ _ _ Hscan) as [-> | ->]; now eexists.
      * assert (exc_type e' = TypeError) as ->
            by (destruct payload; inversion Hit; reflexivity).
        now eexists.
  - rewrite (run_on_exception _ _ _ H). now apply handled_when_readable.
Qed.

(** ** The failure records *)

Lemma run_raises_without_attribute self op e :
  answers self op (Raise e) ->
  attaches_details op (exc_type e) = true ->
  exc_response e = NoAttribute ->
  result (run self op)
  = Raise (builtin_error AttributeError
             ("'" ++ class_name (exc_type e) ++ "' object has no attribute 'response'")).
Proof.
  intros H Hop Hresp. rewrite (run_on_exception _ _ _ H), Hop.
  unfold error_with_details, PyOps.response_details. rewrite Hresp. reflexivity.
Qed.

Lemma run_raises_on_bad_json self op e message :
  answers self op (Raise e) ->
  attaches_details op (exc_type e) = true ->
  exc_response e = Response true (inr message) ->
  result (run self op) = Raise (builtin_error ValueError message).
Proof.
  intros H Hop Hresp. rewrite (run_on_exception _ _ _ H), Hop.
  unfold error_with_details, PyOps.response_details. rewrite Hresp. reflexivity.
Qed.

(** C1: the operations are meant never to raise, and each ends in a
    catch-all clause; yet the clause for an order exception evaluates
    [e.response] outside any [try].  When the client raises an order
    exception, which has no such attribute, [place_market_order] does not
    return a failure record: the [AttributeError] raised inside the handler
    reaches the caller. *)
Theorem order_exception_escapes_place_market_order :
  result (place_market_order (bot_answering (Raise order_rejected)) "BTCUSDT" "BUY" qty_0_001)
  = Raise (builtin_error AttributeError
             "'BinanceOrderException' object has no attribute 'response'").
Proof. vm_compute. reflexivity. Qed.

(** C2, as the code has it: when [e.response] is [None] or false, the
    failure record lacks ["details"] only where the handler never builds
    it (in [get_server_time], and for exceptions that are neither API
    exceptions nor, in the two order placements, order exceptions);
    everywhere else ["details"] is present and holds the text
    ["No response details"]. *)
Theorem details_without_response_body self op e :
  answers self op (Raise e) ->
  response_is_false e ->
  result (run self op)
  = Ret (if attaches_details op (exc_type e)
         then with_details e (VStr "No response details")
         else error_only e).
Proof.
  intros H Hfalse. rewrite (run_on_exception _ _ _ H).
  destruct (attaches_details op (exc_type e)); [| reflexivity].
  now apply details_when_false.
Qed.

Lemma details_without_response_body_witness :
  answers bot_bare limit_20000_50 (Raise api_error_bare)
  /\ response_is_false api_error_bare
  /\ result (run bot_bare limit_20000_50)
     = Ret (VDict [("error", VStr "APIError(code=-1021): Timestamp outside recvWindow.");
                   ("details", VStr "No response details")]).
Proof.
  assert (Ha : answers bot_bare limit_20000_50 (Raise api_error_bare)) by reflexivity.
  assert (Hf : response_is_false api_error_bare) by (left; reflexivity).
  split; [exact Ha | split; [exact Hf |]].
  exact (details_without_response_body bot_bare limit_20000_50 api_error_bare Ha Hf).
Defined.

(** C2 as worded fails: [place_market_order] on an API exception whose
    response is [None] returns a record that has the key ["details"]. *)
Lemma details_present_without_body : ~ details_omitted_without_body.
Proof.
  intros claim.
  destruct (claim (bot_answering (Raise api_error_bare))
                  (op_place_market_order "BTCUSDT" "BUY" qty_0_001)
                  api_error_bare eq_refl eq_refl) as [r [Hr Hkey]].
  vm_compute in Hr. inversion Hr; subst r. discriminate Hkey.
Qed.




(** ** Letter case *)



Lemma upper_char_twice c : Text.upper_char (Text.upper_char c) = Text.upper_char c.
Proof.
  unfold Text.upper_char at 2 3. destruct (Text.is_lower c) eqn:Hc.
  - unfold Text.upper_char.
    assert (Hup : Text.is_lower (ascii_of_nat (nat_of_ascii c - 32)) = false).
    { unfold Text.is_lower in *.
      apply andb_true_iff in Hc as [_ Hhi]. apply Nat.leb_le in Hhi.
      rewrite nat_ascii_embedding by lia.
      apply andb_false_iff; left. apply Nat.leb_gt. lia. }
    now rewrite Hup.
  - unfold Text.upper_char. now rewrite Hc.
Qed.

Lemma upper_twice s : Text.upper (Text.upper s) = Text.upper s.
Proof.
  induction s as [| c r IH]; [reflexivity |].
  cbn [Text.upper]. now rewrite upper_char_twice, IH.
Qed.






(** ** The form handlers *)

Lemma bind_ret {A B} (a : A) (k : A -> M B) : bind (ret a) k = k a.
Proof. unfold bind, ret. destruct (k a); reflexivity. Qed.

Lemma bind_raise {A B} (e : pyexc) (k : A -> M B) : bind (raise e) k = raise e.
Proof. reflexivity. Qed.

Lemma requests_then_silent {A B} (m : M A) (k : A -> M B) :
  (forall a, silent (k a)) -> requests (events (bind m k)) = requests (events m).
Proof.
  intros Hk. rewrite requests_bind.
  destruct (result m); [rewrite Hk |]; now rewrite app_nil_r.
Qed.

Ltac order_handler_is_silent :=
  intros; match goal with |- silent (match exc_type ?e with _ => _ end) =>
    destruct (exc_type e) end; quiet.

(** What [submit_order] sends once the quantity has been read. *)
Lemma submit_order_after_quantity self f q :
  Num.parse_float (quantity_str f) = Some q ->
  Num.le_zero q = false ->
  requests (events (submit_order self f))
  = match order_type f with
    | Market =>
        [request_of (op_place_market_order (Text.upper (symbol_input f))
                       (side_name (side_input f)) (VFloat q))]
    | Limit =>
        match Num.parse_float (price_input f) with
        | None => []
        | Some p =>
            if Num.le_zero p then []
            else [request_of (op_place_limit_order (Text.upper (symbol_input f))
                                (side_name (side_input f)) (VFloat q) (VFloat p))]
        end
    end.
Proof.
  intros Hq Hpos. unfold submit_order.
  rewrite requests_try_silent by order_handler_is_silent.
  unfold PyOps.float at 1. rewrite Hq, bind_ret, Hpos.
  rewrite requests_then_silent by (intros; apply silent_render).
  unfold price_str. destruct (order_type f).
  - apply (run_sends_one_request self (op_place_market_order _ _ _)).
  - unfold PyOps.float. destruct (Num.parse_float (price_input f)) as [p |].
    + rewrite bind_ret. destruct (Num.le_zero p).
      * change (silent (show st_error (VStr "Price must be a positive number for limit orders.") ;;
                        ret VNone)). quiet.
      * apply (run_sends_one_request self (op_place_limit_order _ _ _ _)).
    + reflexivity.
Qed.

Lemma submit_order_bad_quantity self f :
  Num.parse_float (quantity_str f) = None \/ not_positive (quantity_str f) ->
  requests (events (submit_order self f)) = [].
Proof.
  intros Hbad. unfold submit_order.
  rewrite requests_try_silent by order_handler_is_silent.
  unfold PyOps.float at 1. destruct Hbad as [Hq | [q [Hq Hle]]]; rewrite Hq.
  - reflexivity.
  - rewrite bind_ret, Hle. reflexivity.
Qed.

Lemma submit_status_bad_id self symbol order_id_str :
  Num.parse_int order_id_str = None ->
  requests (events (submit_status self symbol order_id_str)) = [].
Proof.
  intros Hid. unfold submit_status.
  destruct (negb (Py.truthy (VStr (Text.upper symbol)))
            || negb (Py.truthy (VStr order_id_str))); [reflexivity |].
  rewrite requests_try_silent by order_handler_is_silent.
  unfold PyOps.int. rewrite Hid. reflexivity.
Qed.







(** ** Construction *)

(** C5: with a key or a secret that is missing or empty the constructor
    logs, raises the configuration error and never asks the SDK for a
    client, so no handle exists; with both given it returns a bot around
    the client the SDK hands back, pointed at the testnet when asked. *)
Theorem construction_needs_both_credentials Client_new api_key api_secret testnet :
  (api_key = None \/ api_key = Some "" \/ api_secret = None \/ api_secret = Some "" ->
   BasicBot_init Client_new api_key api_secret testnet
   = ([Log ERROR "API Key and API Secret are required for bot initialization."],
      Raise (builtin_error ValueError "API Key and API Secret are required.")))
  /\ (forall key secret c,
         api_key = Some key -> api_secret = Some secret ->
         key <> "" -> secret <> "" ->
         Client_new key secret = Ret c ->
         result (BasicBot_init Client_new api_key api_secret testnet)
         = Ret (mk_bot (if testnet
                        then mk_client "https://testnet.binancefuture.com/fapi" (respond c)
                        else c))).
Proof.
  split.
  - intros Hmissing. unfold BasicBot_init.
    assert (Hguard : not_given api_key || not_given api_secret = true).
    { apply orb_true_iff.
      destruct Hmissing as [-> | [-> | [-> | ->]]]; cbn; auto. }
    rewrite Hguard. reflexivity.
  - intros key secret c -> -> Hkey Hsecret Hnew. unfold BasicBot_init.
    cbn [not_given text_of].
    apply String.eqb_neq in Hkey, Hsecret. rewrite Hkey, Hsecret.
    cbn [orb]. rewrite !result_bind. cbn [result emit lift snd].
    rewrite Hnew. destruct testnet; reflexivity.
Qed.

Lemma construction_needs_both_credentials_witness :
  result (BasicBot_init (fun _ _ => Ret (client bot_ack)) (Some "key") (Some "") true)
  = Raise (builtin_error ValueError "API Key and API Secret are required.")
  /\ result (BasicBot_init (fun _ _ => Ret (client bot_ack)) (Some "key") (Some "secret") true)
     = Ret bot_ack.
Proof.
  split.
  - exact (f_equal snd
             (proj1 (construction_needs_both_credentials
                       (fun _ _ => Ret (client bot_ack)) (Some "key") (Some "") true)
                    (or_intror (or_intror (or_intror eq_refl))))).
  - refine (proj2 (construction_needs_both_credentials
                     (fun _ _ => Ret (client bot_ack)) (Some "key") (Some "secret") true)
                  "key" "secret" (client bot_ack) eq_refl eq_refl _ _ eq_refl);
      discriminate.
Defined.

(** ** Balances and successful answers *)

Lemma find_nothing {A} (f : A -> bool) (l : list A) :
  (forall x, In x l -> f x = false) -> find f l = None.
Proof.
  induction l as [| x l IH]; intros Hall; [reflexivity |].
  cbn [find]. rewrite (Hall x (or_introl eq_refl)).
  apply IH. intros y Hy. apply Hall. now right.
Qed.

Lemma usdt_list_has_asset : Forall has_asset [usdt_record].
Proof.
  constructor; [| constructor].
  exists [("asset", VStr "USDT"); ("balance", VStr "100.0")], (VStr "USDT").
  split; reflexivity.
Defined.

(** C7, as the code has it: [place_market_order], [place_limit_order] and
    [get_order_status] return the payload of the transport as it is, and so
    does [get_server_time] for a payload that has the key ["serverTime"];
    [get_account_balance] does not return the list it received but its
    first entry holding the asset, unchanged, or the not-found record. *)
Theorem success_payload_by_operation self op payload :
  answers self op (Ret payload) ->
  match op with
  | op_get_server_time =>
      has_key "serverTime" payload = true -> result (run self op) = Ret payload
  | op_get_account_balance asset =>
      forall items,
        payload = VList items -> Forall has_asset items ->
        result (run self op)
        = Ret match find (holds asset) items with
              | Some hit => hit
              | None => not_found asset
              end
  | _ => result (run self op) = Ret payload
  end.
Proof.
  intros H.
  pose proof (orders_return_payload self op payload H) as Horders.
  destruct op; try exact Horders.
  - intros Hkey. now apply server_time_returns_payload.
  - intros items -> Hitems. now apply balance_scans_payload.
Qed.

Lemma success_payload_by_operation_witness :
  result (run bot_ack (op_get_order_status "btcusdt" (VInt 42))) = Ret order_ack
  /\ result (run bot_usdt (op_get_account_balance "usdt")) = Ret usdt_record.
Proof.
  split.
  - exact (success_payload_by_operation bot_ack (op_get_order_status "btcusdt" (VInt 42))
             order_ack eq_refl).
  - exact (success_payload_by_operation bot_usdt (op_get_account_balance "usdt")
             (VList [usdt_record]) eq_refl [usdt_record] eq_refl usdt_list_has_asset).
Defined.

(** C7 as worded fails: the transport returns a list of balances and
    [get_account_balance] returns one entry of it. *)
Lemma balance_is_not_the_payload : ~ success_is_passed_through.
Proof.
  intros claim.
  specialize (claim bot_usdt (op_get_account_balance "USDT") (VList [usdt_record]) eq_refl).
  vm_compute in claim. discriminate claim.
Qed.




(** C10: when no entry of the balance list holds the requested asset, the
    message of the failure record spells the asset as the caller wrote it,
    although the comparison used its upper-cased form. *)
Theorem not_found_message_keeps_the_request_casing self asset items :
  answers self (op_get_account_balance asset) (Ret (VList items)) ->
  Forall has_asset items ->
  (forall entry, In entry items -> holds asset entry = false) ->
  result (get_account_balance self asset)
  = Ret (VDict [("error", VStr ("Asset " ++ asset ++ " not found."))]).
Proof.
  intros H Hitems Habsent.
  rewrite (balance_scans_payload self asset items H Hitems).
  now rewrite (find_nothing _ _ Habsent).
Qed.

Lemma not_found_message_keeps_the_request_casing_witness :
  result (get_account_balance bot_usdt "zzz")
  = Ret (VDict [("error", VStr "Asset zzz not found.")]).
Proof.
  refine (not_found_message_keeps_the_request_casing bot_usdt "zzz" [usdt_record]
            eq_refl usdt_list_has_asset _).
  intros entry [<- | []]. reflexivity.
Defined.

(** * Further properties of the program *)

(** ** The facade on unusual answers *)

(** X1: [get_server_time] never raises.  Whatever the client does, it
    sends one request and returns either the payload it received, which is
    then a dict with the key ["serverTime"], or a record whose only key is
    ["error"]. *)
Theorem get_server_time_never_raises self :
  requests (events (get_server_time self)) = [futures_time]
  /\ exists r,
      result (get_server_time self) = Ret r
      /\ ((respond (client self) futures_time = Ret r /\ has_key "serverTime" r = true)
          \/ exists message, r = VDict [("error", VStr message)]).
Proof.
  split; [exact (run_sends_one_request self op_get_server_time) |].
  destruct (respond (client self) futures_time) as [payload | e] eqn:H.
  - destruct (has_key "serverTime" payload) eqn:Hkey.
    + exists payload. split; [now apply server_time_returns_payload | now left].
    + change (get_server_time self) with (run self op_get_server_time).
      run_body H. rewrite result_bind.
      destruct (result (PyOps.getitem payload "serverTime")) as [t | e] eqn:Hget.
      * exfalso. destruct payload; try discriminate Hget.
        unfold PyOps.getitem in Hget. cbn [has_key] in Hkey.
        destruct (Py.lookup "serverTime" fields); discriminate.
      * exists (error_only e). split; [| right; now eexists].
        destruct (exc_type e); reflexivity.
  - exists (error_only e). split; [| right; now eexists].
    change (get_server_time self) with (run self op_get_server_time).
    now rewrite (run_on_exception self op_get_server_time e H).
Qed.

(** X2: a server-time payload that is a dict without the key
    ["serverTime"] is not returned: reading the key for the log line
    raises [KeyError], and the result is the failure record whose message
    is the quoted key. *)
Theorem server_time_without_key_is_a_failure self fields :
  respond (client self) futures_time = Ret (VDict fields) ->
  Py.lookup "serverTime" fields = None ->
  get_server_time self
  = ([Call futures_time;
      Log ERROR "An unexpected error occurred checking server time: 'serverTime'"],
     Ret (VDict [("error", VStr "'serverTime'")])).
Proof.
  intros H Hkey. unfold get_server_time, call, bind, emit, lift, try_except.
  rewrite H. cbn. rewrite Hkey. reflexivity.
Qed.

Lemma server_time_without_key_is_a_failure_witness :
  get_server_time (bot_answering (Ret (VDict [("time", VInt 1)])))
  = ([Call futures_time;
      Log ERROR "An unexpected error occurred checking server time: 'serverTime'"],
     Ret (VDict [("error", VStr "'serverTime'")])).
Proof.
  exact (server_time_without_key_is_a_failure
           (bot_answering (Ret (VDict [("time", VInt 1)]))) [("time", VInt 1)]
           eq_refl eq_refl).
Defined.

(** X3: no operation of the facade retries or skips its call: each
    invocation sends exactly one request to the exchange, whether the
    answer is a payload or an exception of any kind. *)
Theorem every_operation_sends_exactly_one_request self op :
  requests (events (run self op)) = [request_of op]
  /\ List.length (requests (events (run self op))) = 1.
Proof.
  pose proof (run_sends_one_request self op) as H. rewrite H. now split.
Qed.

(** X4: the facade lets an exception out in one situation only: the client
    raised an exception for which the handler builds ["details"], and
    reading its response raises (the attribute is missing, or the response
    is true and its body is not JSON).  In particular no payload, of
    whatever shape, makes an operation raise. *)
Theorem facade_raises_only_on_unreadable_response self op o :
  answers self op o ->
  (exists escaped, result (run self op) = Raise escaped)
  <-> (exists e, o = Raise e /\ attaches_details op (exc_type e) = true
                 /\ (exc_response e = NoAttribute
                     \/ exists message, exc_response e = Response true (inr message))).
Proof.
  intros H. split.
  - intros [escaped Hesc]. destruct o as [payload | e].
    + destruct (run_returns_when_readable self op (Ret payload) H I) as [r Hr].
      rewrite Hr in Hesc. discriminate.
    + exists e. split; [reflexivity |].
      rewrite (run_on_exception _ _ _ H) in Hesc.
      destruct (attaches_details op (exc_type e)); [split; [reflexivity |] | discriminate].
      unfold error_with_details, PyOps.response_details in Hesc.
      destruct (exc_response e) as [| | [|] [body | message]];
        cbn in Hesc; try discriminate Hesc; [now left | right; now eexists].
  - intros [e [-> [Hop Hbad]]]. destruct Hbad as [Hno | [message Hjson]].
    + eexists. exact (run_raises_without_attribute self op e H Hop Hno).
    + eexists. exact (run_raises_on_bad_json self op e message H Hop Hjson).
Qed.

Lemma facade_raises_only_on_unreadable_response_witness :
  exists escaped,
    result (run (bot_answering (Raise order_rejected))
                (op_place_limit_order "ethusdt" "sell" qty_0_001 (VStr "1800")))
    = Raise escaped.
Proof.
  apply (proj2 (facade_raises_only_on_unreadable_response
                  (bot_answering (Raise order_rejected))
                  (op_place_limit_order "ethusdt" "sell" qty_0_001 (VStr "1800"))
                  (Raise order_rejected) eq_refl)).
  exists order_rejected. split; [reflexivity | split; [reflexivity | now left]].
Defined.

(** X5: an entry of the balance list without an ["asset"] field ends the
    scan.  When the entries before it have the field and do not hold the
    requested asset, the result is the failure record whose message is the
    quoted key, whatever follows in the list, the requested asset
    included. *)
Theorem entry_without_asset_ends_the_scan self asset before fields after :
  answers self (op_get_account_balance asset)
          (Ret (VList (before ++ VDict fields :: after))) ->
  Forall has_asset before ->
  (forall entry, In entry before -> holds asset entry = false) ->
  Py.lookup "asset" fields = None ->
  result (get_account_balance self asset) = Ret (VDict [("error", VStr "'asset'")]).
Proof.
  intros H Hbefore Hnone Hkey.
  change (get_account_balance self asset) with (run self (op_get_account_balance asset)).
  run_body H. cbn [PyOps.iterate]. rewrite result_bind. cbn [ret result snd].
  assert (Hscan : result (scan_balances asset (before ++ VDict fields :: after))
                  = Raise (builtin_error KeyError "'asset'")).
  { clear H. induction Hbefore as [| entry rest [fs [code [-> Hcode]]] _ IH].
    - cbn [app scan_balances]. rewrite result_bind.
      unfold PyOps.getitem. rewrite Hkey. reflexivity.
    - cbn [app scan_balances]. rewrite result_bind.
      unfold PyOps.getitem. rewrite Hcode. cbn [result ret snd].
      pose proof (Hnone (VDict fs) (or_introl eq_refl)) as Hentry.
      cbn [holds] in Hentry. rewrite Hcode in Hentry. rewrite Hentry.
      apply IH. intros entry Hin. apply Hnone. now right. }
  rewrite Hscan. reflexivity.
Qed.

Lemma entry_without_asset_ends_the_scan_witness :
  result (get_account_balance
            (bot_answering (Ret (VList [VDict [("balance", VStr "1")]; usdt_record])))
            "USDT")
  = Ret (VDict [("error", VStr "'asset'")]).
Proof.
  refine (entry_without_asset_ends_the_scan
            (bot_answering (Ret (VList [VDict [("balance", VStr "1")]; usdt_record])))
            "USDT" [] [("balance", VStr "1")] [usdt_record] eq_refl (Forall_nil _) _ eq_refl).
  intros entry [].
Defined.

(** X6: a balance payload that cannot be iterated ([None], a bool, an int
    or a float) is reported as a failure record carrying the interpreter's
    message and no ["details"]. *)
Theorem balance_payload_not_iterable self asset payload :
  answers self (op_get_account_balance asset) (Ret payload) ->
  (payload = VNone \/ (exists b, payload = VBool b) \/ (exists n, payload = VInt n)
   \/ exists x, payload = VFloat x) ->
  result (get_account_balance self asset)
  = Ret (VDict [("error", VStr ("'" ++ Py.type_name payload ++ "' object is not iterable"))]).
Proof.
  intros H Hshape.
  change (get_account_balance self asset) with (run self (op_get_account_balance asset)).
  run_body H. rewrite result_bind.
  destruct Hshape as [-> | [[b ->] | [[n ->] | [x ->]]]]; reflexivity.
Qed.

Lemma balance_payload_not_iterable_witness :
  result (get_account_balance (bot_answering (Ret VNone)) "USDT")
  = Ret (VDict [("error", VStr "'NoneType' object is not iterable")]).
Proof.
  exact (balance_payload_not_iterable (bot_answering (Ret VNone)) "USDT" VNone
           eq_refl (or_introl eq_refl)).
Defined.

(** X7: [place_limit_order] itself keeps a price it is given as text: the
    request carries that text unchanged, since [str] of a string is the
    string.  (The order form never passes text.) *)
Theorem limit_price_given_as_text_is_kept self symbol side quantity price_text :
  requests (events (place_limit_order self symbol side quantity (VStr price_text)))
  = [futures_create_order
       [("symbol", VStr (Text.upper symbol)); ("side", VStr (Text.upper side));
        ("type", VStr "LIMIT"); ("timeInForce", VStr "GTC");
        ("quantity", quantity); ("price", VStr price_text)]].
Proof.
  exact (run_sends_one_request self
           (op_place_limit_order symbol side quantity (VStr price_text))).
Qed.

(** ** The order and status forms *)

Lemma handler_returns {A} (body : M A) (handler : pyexc -> M A) :
  (forall e, exists a, result (handler e) = Ret a) ->
  exists a, result (try_except body handler) = Ret a.
Proof.
  intros Hh. rewrite result_try.
  destruct (result body) as [a | e]; [now exists a | apply Hh].
Qed.

(** X8: neither form handler lets an exception out, whatever the facade
    does, the exceptions that escape the facade included: each ends in a
    catch-all clause whose body only writes to the page and the log. *)
Theorem form_handlers_never_raise self :
  (forall f, result (submit_order self f) = Ret tt)
  /\ (forall symbol order_id_str, result (submit_status self symbol order_id_str) = Ret tt).
Proof.
  assert (unit_ret : forall m : M unit, (exists a, result m = Ret a) -> result m = Ret tt).
  { intros m [[] Hm]. exact Hm. }
  split.
  - intros f. apply unit_ret. unfold submit_order. apply handler_returns.
    intros e. exists tt. destruct (exc_type e); reflexivity.
  - intros symbol order_id_str. unfold submit_status.
    destruct (negb (Py.truthy (VStr (Text.upper symbol)))
              || negb (Py.truthy (VStr order_id_str))); [reflexivity |].
    apply unit_ret. apply handler_returns.
    intros e. exists tt. destruct (exc_type e); reflexivity.
Qed.





Lemma upper_empty s : Text.upper s = "" -> s = "".
Proof. destruct s; [reflexivity | discriminate]. Qed.

Lemma status_guard_passes symbol order_id_str :
  symbol <> "" -> order_id_str <> "" ->
  negb (Py.truthy (VStr (Text.upper symbol))) || negb (Py.truthy (VStr order_id_str)) = false.
Proof.
  intros Hsym Hid. cbn [Py.truthy]. rewrite !negb_involutive.
  apply orb_false_iff. split; apply String.eqb_neq; [| exact Hid].
  intros Hup. apply Hsym. now apply upper_empty.
Qed.

Lemma submit_status_after_id self symbol order_id_str n :
  symbol <> "" ->
  Num.parse_int order_id_str = Some n ->
  requests (events (submit_status self symbol order_id_str))
  = [futures_get_order [("symbol", VStr (Text.upper symbol)); ("orderId", VInt n)]].
Proof.
  intros Hsym Hid. unfold submit_status.
  rewrite status_guard_passes; [| exact Hsym | intros ->; discriminate Hid].
  rewrite requests_try_silent by order_handler_is_silent.
  unfold PyOps.int. rewrite Hid, bind_ret.
  rewrite requests_then_silent by (intros; apply silent_render).
  pose proof (run_sends_one_request self
                (op_get_order_status (Text.upper symbol) (VInt n))) as Hsent.
  cbn [run request_of] in Hsent. rewrite Hsent. now rewrite upper_twice.
Qed.

Lemma status_form_blank self order_id_str :
  requests (events (submit_status self "" order_id_str)) = [].
Proof. reflexivity. Qed.

(** X11: the status form asks the exchange only when both fields are
    filled: with an empty symbol or an empty order id it shows one warning
    and does nothing else. *)
Theorem status_form_needs_both_fields self symbol order_id_str :
  symbol = "" \/ order_id_str = "" ->
  submit_status self symbol order_id_str
  = ([Show st_warning (VStr "Please enter Symbol and Order ID.")], Ret tt).
Proof.
  intros Hblank. unfold submit_status.
  assert (Hguard : negb (Py.truthy (VStr (Text.upper symbol)))
                   || negb (Py.truthy (VStr order_id_str)) = true).
  { apply orb_true_iff. destruct Hblank as [-> | ->]; [left | right]; reflexivity. }
  rewrite Hguard. reflexivity.
Qed.

Lemma status_form_needs_both_fields_witness :
  submit_status bot_ack "BTCUSDT" ""
  = ([Show st_warning (VStr "Please enter Symbol and Order ID.")], Ret tt).
Proof.
  exact (status_form_needs_both_fields bot_ack "BTCUSDT" "" (or_intror eq_refl)).
Defined.



(** X13: one submission sends at most one request: neither form ever
    places two orders or looks an order up twice, whatever was typed and
    whatever the exchange answers. *)
Theorem a_submission_sends_at_most_one_request self :
  (forall f, List.length (requests (events (submit_order self f))) <= 1)
  /\ (forall symbol order_id_str,
         List.length (requests (events (submit_status self symbol order_id_str))) <= 1).
Proof.
  split.
  - intros f.
    destruct (Num.parse_float (quantity_str f)) as [q |] eqn:Hq.
    + destruct (Num.le_zero q) eqn:Hle.
      * rewrite submit_order_bad_quantity; [cbn; lia |]. right. now exists q.
      * rewrite (submit_order_after_quantity self f q Hq Hle).
        destruct (order_type f); [cbn; lia |].
        destruct (Num.parse_float (price_input f)) as [p |]; [| cbn; lia].
        destruct (Num.le_zero p); cbn; lia.
    + rewrite submit_order_bad_quantity; [cbn; lia | now left].
  - intros symbol order_id_str.
    destruct (string_dec symbol "") as [-> | Hsym].
    + rewrite status_form_blank. cbn; lia.
    + destruct (Num.parse_int order_id_str) as [n |] eqn:Hid.
      * rewrite (submit_status_after_id self symbol order_id_str n Hsym Hid). cbn; lia.
      * rewrite submit_status_bad_id by exact Hid. cbn; lia.
Qed.






(** ** Connecting *)

Lemma page_requests_of_program (t : list event) :
  Page.requests (map Main t) = requests t.
Proof.
  induction t as [| ev t IH]; [reflexivity |].
  destruct ev; cbn [map Page.requests requests]; now rewrite IH.
Qed.

(** How [get_server_time] ends, as the connect handler sees it: one call,
    one log record, and a dict that is the payload with its ["serverTime"]
    or a record with ["error"] alone. *)
Lemma get_server_time_run self :
  exists record fields,
    get_server_time self = ([Call futures_time; record], Ret (VDict fields))
    /\ (exists l message, record = Log l message)
    /\ ((respond (client self) futures_time = Ret (VDict fields)
         /\ exists t, Py.lookup "serverTime" fields = Some t)
        \/ (exists message, fields = [("error", VStr message)]
            /\ forall fs t, respond (client self) futures_time = Ret (VDict fs) ->
                            Py.lookup "serverTime" fs = Some t -> False)).
Proof.
  unfold get_server_time, call, bind, emit, lift, try_except.
  destruct (respond (client self) futures_time) as [payload | e] eqn:H.
  - destruct payload;
      try (cbn; do 2 eexists; split; [reflexivity |]; split; [now do 2 eexists |];
           right; eexists; split; [reflexivity | intros fs t Hfs; discriminate Hfs]).
    cbn. destruct (Py.lookup "serverTime" fields) as [t |] eqn:Hkey.
    + do 2 eexists; split; [reflexivity |]; split; [now do 2 eexists |].
      left. split; [reflexivity | now exists t].
    + do 2 eexists; split; [reflexivity |]; split; [now do 2 eexists |].
      right. eexists; split; [reflexivity |].
      intros fs t Hfs Ht. inversion Hfs; subst fs. rewrite Hkey in Ht. discriminate.
  - cbn. destruct (exc_type e);
      (do 2 eexists; split; [reflexivity |]; split; [now do 2 eexists |];
       right; eexists; split; [reflexivity | intros fs t Hfs; discriminate Hfs]).
Qed.

Lemma connect_blank Client_new key secret s :
  key = "" \/ secret = "" ->
  connect Client_new key secret s
  = ([Sidebar st_warning (VStr "Please enter both API Key and Secret.")], s, Ret tt).
Proof.
  intros Hblank. unfold connect.
  assert (Hguard : Py.truthy (VStr key) && Py.truthy (VStr secret) = false).
  { apply andb_false_iff. destruct Hblank as [-> | ->]; [left | right]; reflexivity. }
  rewrite Hguard. reflexivity.
Qed.

Lemma connect_guard key secret :
  key <> "" -> secret <> "" -> Py.truthy (VStr key) && Py.truthy (VStr secret) = true.
Proof.
  intros Hk Hs. cbn [Py.truthy]. apply String.eqb_neq in Hk, Hs. now rewrite Hk, Hs.
Qed.

Lemma init_with_credentials Client_new key secret :
  key <> "" -> secret <> "" ->
  BasicBot_init Client_new (Some key) (Some secret) true
  = match Client_new key secret with
    | Ret c =>
        ([NewClient key secret; Log INFO "Bot initialized. Testnet: True"],
         Ret (mk_bot (mk_client "https://testnet.binancefuture.com/fapi" (respond c))))
    | Raise e => ([NewClient key secret], Raise e)
    end.
Proof.
  intros Hk Hs. unfold BasicBot_init. cbn [not_given text_of].
  apply String.eqb_neq in Hk, Hs. rewrite Hk, Hs. cbn [orb].
  unfold bind, emit, lift, logger_info, ret.
  destruct (Client_new key secret); reflexivity.
Qed.

Lemma connect_sdk_failure Client_new key secret s e :
  key <> "" -> secret <> "" ->
  Client_new key secret = Raise e ->
  connect Client_new key secret s
  = ([Main (NewClient key secret);
      Sidebar st_error
        (VStr ((match exc_type e with
                | ValueError => "Initialization Error: "
                | _ => "An unexpected error occurred: "
                end) ++ exc_str e));
      Main (Log ERROR
              ((match exc_type e with
                | ValueError => "Streamlit UI bot initialization error: "
                | _ => "Unexpected error during Streamlit connection: "
                end) ++ exc_str e))],
     s, Ret tt).
Proof.
  intros Hk Hs Hnew. unfold connect. rewrite (connect_guard key secret Hk Hs).
  unfold Page.try_except, Page.bind, Page.lift.
  rewrite (init_with_credentials Client_new key secret Hk Hs), Hnew.
  cbn. destruct (exc_type e); reflexivity.
Qed.

(** Whether the answer to the server-time call makes the session
    connected: a dict with ["serverTime"] and without ["error"]. *)
Lemma connect_sdk_success Client_new key secret s c :
  key <> "" -> secret <> "" ->
  Client_new key secret = Ret c ->
  Page.outcome_of (connect Client_new key secret s) = Ret tt
  /\ Page.state (connect Client_new key secret s)
     = SessionState.mk
         (Some (mk_bot (mk_client "https://testnet.binancefuture.com/fapi" (respond c))))
         match respond c futures_time with
         | Ret (VDict fields) =>
             match Py.lookup "serverTime" fields, Py.lookup "error" fields with
             | Some _, None => true
             | _, _ => false
             end
         | _ => false
         end
         key secret
  /\ Page.requests (Page.trace (connect Client_new key secret s)) = [futures_time]
  /\ Page.clients (Page.trace (connect Client_new key secret s)) = [(key, secret)].
Proof.
  intros Hk Hs Hnew.
  remember (connect Client_new key secret s) as run eqn:E.
  unfold connect in E. rewrite (connect_guard key secret Hk Hs) in E.
  unfold Page.try_except, Page.bind, Page.lift, Page.modify, Page.ret, sidebar, Page.emit in E.
  rewrite (init_with_credentials Client_new key secret Hk Hs), Hnew in E.
  cbn [events result fst snd map] in E.
  set (bot := mk_bot (mk_client "https://testnet.binancefuture.com/fapi" (respond c))) in *.
  destruct (get_server_time_run bot) as [record [fields [Hrun [[l [message ->]] Hshape]]]].
  change (respond (client bot) futures_time) with (respond c futures_time) in Hshape.
  rewrite Hrun in E. cbn [events result fst snd map app] in E.
  destruct Hshape as [[Hpayload [t Ht]] | [msg [-> Hnot]]].
  - rewrite Hpayload, Ht.
    assert (Htruthy : Py.truthy (VDict fields) = true)
      by (destruct fields; [discriminate Ht | reflexivity]).
    rewrite Htruthy in E. cbn [PyOps.contains ret events result fst snd map app] in E.
    destruct (Py.lookup "error" fields) as [err |] eqn:Herr;
      cbn in E; rewrite ?Herr, ?Ht in E; cbn in E; subst run; repeat split.
  - cbn in E.
    assert (Hflag : match respond c futures_time with
                    | Ret (VDict fields) =>
                        match Py.lookup "serverTime" fields, Py.lookup "error" fields with
                        | Some _, None => true
                        | _, _ => false
                        end
                    | _ => false
                    end = false).
    { destruct (respond c futures_time) as [[| | | | | | fs] | e]; try reflexivity.
      destruct (Py.lookup "serverTime" fs) as [t |] eqn:Ht; [| reflexivity].
      exfalso. exact (Hnot fs t eq_refl Ht). }
    rewrite Hflag. subst run. repeat split.
Qed.

(** X16: the connect button does nothing but warn when the key or the
    secret is empty: the session state is left as it was, the SDK is not
    asked for a client and no request is sent. *)
Theorem connect_needs_both_fields Client_new key secret s :
  key = "" \/ secret = "" ->
  connect Client_new key secret s
  = ([Sidebar st_warning (VStr "Please enter both API Key and Secret.")], s, Ret tt).
Proof. exact (connect_blank Client_new key secret s). Qed.

Lemma connect_needs_both_fields_witness :
  connect (fun _ _ => Ret (client bot_ack)) "key" "" (SessionState.initial "old" "creds")
  = ([Sidebar st_warning (VStr "Please enter both API Key and Secret.")],
     SessionState.initial "old" "creds", Ret tt).
Proof.
  exact (connect_needs_both_fields (fun _ _ => Ret (client bot_ack)) "key" ""
           (SessionState.initial "old" "creds") (or_intror eq_refl)).
Defined.

(** X17: once the SDK has built a client, connecting stores a bot around
    it (pointed at the testnet) and the two credentials, sends the
    server-time request once, and sets the connected flag to true exactly
    when the answer is a dict that has ["serverTime"] and no ["error"] key;
    on any other answer, an exception included, the flag is set to false
    while the new bot and credentials stay stored. *)
Theorem connect_stores_the_bot_and_sets_the_flag Client_new key secret s c :
  key <> "" -> secret <> "" ->
  Client_new key secret = Ret c ->
  Page.outcome_of (connect Client_new key secret s) = Ret tt
  /\ Page.state (connect Client_new key secret s)
     = SessionState.mk
         (Some (mk_bot (mk_client "https://testnet.binancefuture.com/fapi" (respond c))))
         match respond c futures_time with
         | Ret (VDict fields) =>
             match Py.lookup "serverTime" fields, Py.lookup "error" fields with
             | Some _, None => true
             | _, _ => false
             end
         | _ => false
         end
         key secret
  /\ Page.requests (Page.trace (connect Client_new key secret s)) = [futures_time].
Proof.
  intros Hk Hs Hnew.
  destruct (connect_sdk_success Client_new key secret s c Hk Hs Hnew) as [Ho [Hst [Hr _]]].
  now repeat split.
Qed.

Lemma connect_stores_the_bot_and_sets_the_flag_witness :
  Page.state (connect (fun _ _ => Ret (client bot_bare)) "key" "secret"
                (SessionState.mk (Some bot_ack) true "old" "creds"))
  = SessionState.mk (Some bot_bare) false "key" "secret".
Proof.
  refine (proj1 (proj2 (connect_stores_the_bot_and_sets_the_flag
                          (fun _ _ => Ret (client bot_bare)) "key" "secret"
                          (SessionState.mk (Some bot_ack) true "old" "creds")
                          (client bot_bare) _ _ eq_refl)));
    discriminate.
Defined.

(** X18: when the SDK fails to build the client, the session state is left
    untouched, a connection made earlier included; nothing is sent to the
    exchange, and the sidebar names the failure an initialization error if
    it is a [ValueError] and an unexpected error otherwise. *)
Theorem failed_client_leaves_the_session_untouched Client_new key secret s e :
  key <> "" -> secret <> "" ->
  Client_new key secret = Raise e ->
  connect Client_new key secret s
  = ([Main (NewClient key secret);
      Sidebar st_error
        (VStr ((match exc_type e with
                | ValueError => "Initialization Error: "
                | _ => "An unexpected error occurred: "
                end) ++ exc_str e));
      Main (Log ERROR
              ((match exc_type e with
                | ValueError => "Streamlit UI bot initialization error: "
                | _ => "Unexpected error during Streamlit connection: "
                end) ++ exc_str e))],
     s, Ret tt).
Proof. exact (connect_sdk_failure Client_new key secret s e). Qed.

Lemma failed_client_leaves_the_session_untouched_witness :
  Page.state (connect (fun _ _ => Raise api_error_bare) "key" "secret"
                (SessionState.mk (Some bot_ack) true "old" "creds"))
  = SessionState.mk (Some bot_ack) true "old" "creds".
Proof.
  refine (f_equal (fun r => snd (fst r))
            (failed_client_leaves_the_session_untouched
               (fun _ _ => Raise api_error_bare) "key" "secret"
               (SessionState.mk (Some bot_ack) true "old" "creds")
               api_error_bare _ _ eq_refl));
    discriminate.
Defined.

(** X19: the connect handler never raises, asks the SDK for at most one
    client and the exchange at most once, and keeps the session
    well-formed: if the connected flag implied a stored bot before, it does
    so after, and then the tabs are drawn exactly when the flag is set. *)
Theorem connect_never_raises_and_keeps_the_session_well_formed Client_new key secret s :
  (SessionState.connected s = true -> SessionState.bot_instance s <> None) ->
  Page.outcome_of (connect Client_new key secret s) = Ret tt
  /\ (SessionState.connected (Page.state (connect Client_new key secret s)) = true ->
      SessionState.bot_instance (Page.state (connect Client_new key secret s)) <> None)
  /\ main_area_shown (Page.state (connect Client_new key secret s))
     = SessionState.connected (Page.state (connect Client_new key secret s))
  /\ List.length (Page.clients (Page.trace (connect Client_new key secret s))) <= 1
  /\ List.length (Page.requests (Page.trace (connect Client_new key secret s))) <= 1.
Proof.
  intros Hinv.
  assert (Hshown : main_area_shown s = SessionState.connected s).
  { unfold main_area_shown. destruct (SessionState.bot_instance s) eqn:Hbot; [reflexivity |].
    destruct (SessionState.connected s); [| reflexivity].
    exfalso. now apply Hinv. }
  destruct (string_dec key "") as [Hk | Hk].
  { rewrite (connect_blank Client_new key secret s (or_introl Hk)). cbn. repeat split; auto. }
  destruct (string_dec secret "") as [Hs | Hs].
  { rewrite (connect_blank Client_new key secret s (or_intror Hs)). cbn. repeat split; auto. }
  destruct (Client_new key secret) as [c | e] eqn:Hnew.
  - destruct (connect_sdk_success Client_new key secret s c Hk Hs Hnew)
      as [Ho [Hst [Hr Hc]]].
    rewrite Ho, Hst, Hr, Hc. cbn. repeat split; auto. discriminate.
  - rewrite (connect_sdk_failure Client_new key secret s e Hk Hs Hnew). cbn. repeat split; auto.
Qed.

Lemma connect_never_raises_and_keeps_the_session_well_formed_witness :
  Page.outcome_of (connect (fun _ _ => Raise order_rejected) "key" "secret"
                     (SessionState.initial "" ""))
  = Ret tt.
Proof.
  refine (proj1 (connect_never_raises_and_keeps_the_session_well_formed
                   (fun _ _ => Raise order_rejected) "key" "secret"
                   (SessionState.initial "" "") _)).
  discriminate.
Defined.

(** ** The balance tab *)

Lemma scan_run asset items :
  Forall has_asset items ->
  scan_balances asset items
  = ([match find (holds asset) items with
      | Some hit => Log INFO ("Balance for " ++ asset ++ ": " ++ Py.str hit)
      | None => Log WARNING ("Asset " ++ asset ++ " not found in futures account balance.")
      end],
     Ret match find (holds asset) items with
         | Some hit => hit
         | None => not_found asset
         end).
Proof.
  induction 1 as [| entry rest [fields [code [-> Hcode]]] _ IH]; [reflexivity |].
  cbn [scan_balances find holds]. unfold PyOps.getitem. rewrite Hcode, bind_ret.
  destruct (Py.eq_str code (Text.upper asset)); [reflexivity | exact IH].
Qed.

Lemma get_account_balance_run self asset items :
  answers self (op_get_account_balance asset) (Ret (VList items)) ->
  Forall has_asset items ->
  get_account_balance self asset
  = ([Log INFO ("Fetching account balance for asset: " ++ asset);
      Call futures_account_balance;
      match find (holds asset) items with
      | Some hit => Log INFO ("Balance for " ++ asset ++ ": " ++ Py.str hit)
      | None => Log WARNING ("Asset " ++ asset ++ " not found in futures account balance.")
      end],
     Ret match find (holds asset) items with
         | Some hit => hit
         | None => not_found asset
         end).
Proof.
  intros H Hitems. unfold answers, request_of in H.
  unfold get_account_balance, try_except, bind, logger_info, emit, call, lift.
  rewrite H. cbn. rewrite (scan_run asset items Hitems). reflexivity.
Qed.

Lemma float_emits_nothing v : PyMore.float v = ([], result (PyMore.float v)).
Proof.
  destruct v; try reflexivity.
  - cbn [PyMore.float]. destruct (Num.of_decimal (n <? 0)%Z (Z.abs n) 0); reflexivity.
  - cbn [PyMore.float]. unfold PyOps.float. destruct (Num.parse_float s); reflexivity.
Qed.

(** X20: the other-asset form asks nothing of the exchange when the asset
    field is empty: it shows one warning and leaves it at that. *)
Theorem other_balance_needs_a_symbol self asset_input s :
  asset_input = "" ->
  fetch_other_balance self asset_input s
  = ([Main (Show st_warning (VStr "Please enter an asset symbol."))], s, Ret tt).
Proof. intros ->. reflexivity. Qed.

Lemma other_balance_needs_a_symbol_witness :
  Page.requests (Page.trace (fetch_other_balance bot_usdt "" (SessionState.initial "" ""))) = [].
Proof.
  exact (f_equal (fun r => Page.requests (fst (fst r)))
           (other_balance_needs_a_symbol bot_usdt "" (SessionState.initial "" "") eq_refl)).
Defined.

(** X21: the USDT button shows the balance it found with four decimals.
    For the entry holding USDT, the total and available amounts are the
    floats read from its ["balance"] and ["availableBalance"] fields, a
    missing field counting as 0, each written by the format [.4f] and
    followed by the unit. *)
Theorem usdt_balance_is_shown_with_four_decimals self s items fields x y :
  answers self (op_get_account_balance "USDT") (Ret (VList items)) ->
  Forall has_asset items ->
  find (holds "USDT") items = Some (VDict fields) ->
  Py.lookup "error" fields = None ->
  result (PyMore.float match Py.lookup "balance" fields with
                       | Some v => v
                       | None => VInt 0
                       end) = Ret x ->
  result (PyMore.float match Py.lookup "availableBalance" fields with
                       | Some v => v
                       | None => VInt 0
                       end) = Ret y ->
  Page.outcome_of (fetch_usdt_balance self s) = Ret tt
  /\ In (Metric "Total Balance" (VStr (PyMore.format_fixed 4 x ++ " USDT")))
        (Page.trace (fetch_usdt_balance self s))
  /\ In (Metric "Available Balance" (VStr (PyMore.format_fixed 4 y ++ " USDT")))
        (Page.trace (fetch_usdt_balance self s)).
Proof.
  intros H Hitems Hfind Herr Hx Hy.
  remember (fetch_usdt_balance self s) as run eqn:E.
  unfold fetch_usdt_balance, show_balance in E.
  unfold Page.bind, Page.lift, Page.ret, st_metric, Page.emit in E.
  rewrite (get_account_balance_run self "USDT" items H Hitems), Hfind in E.
  cbn [events result fst snd map] in E.
  assert (Htruthy : Py.truthy (VDict fields) = true).
  { apply Forall_forall with (x := VDict fields) in Hitems.
    - destruct Hitems as [fs [code [Heq Hcode]]]. inversion Heq; subst fs.
      destruct fields; [discriminate Hcode | reflexivity].
    - apply find_some in Hfind. tauto. }
  rewrite Htruthy in E.
  cbn [PyOps.contains PyMore.get ret events result fst snd map app] in E.
  rewrite Herr in E. cbn [events result fst snd map app ret] in E.
  rewrite (float_emits_nothing match Py.lookup "balance" fields with
                               | Some v => v | None => VInt 0 end), Hx in E.
  rewrite (float_emits_nothing match Py.lookup "availableBalance" fields with
                               | Some v => v | None => VInt 0 end), Hy in E.
  cbn in E. subst run. cbn. repeat split; auto 10.
Qed.

Lemma usdt_balance_is_shown_with_four_decimals_witness :
  In (Metric "Total Balance" (VStr "100.0000 USDT"))
     (Page.trace (fetch_usdt_balance bot_usdt (SessionState.initial "" "")))
  /\ In (Metric "Available Balance" (VStr "0.0000 USDT"))
        (Page.trace (fetch_usdt_balance bot_usdt (SessionState.initial "" ""))).
Proof.
  exact (proj2 (usdt_balance_is_shown_with_four_decimals
                  bot_usdt (SessionState.initial "" "") [usdt_record]
                  [("asset", VStr "USDT"); ("balance", VStr "100.0")]
                  (Num.of_decimal false 1000 (-1)) (S754_zero false)
                  eq_refl usdt_list_has_asset eq_refl eq_refl eq_refl eq_refl)).
Defined.

(** X22: nothing in the balance tab catches an exception.  When the entry
    holding USDT has a ["balance"] that is text [float] cannot read, the
    handler raises that [ValueError] to the page, after the asset metric
    and without any error widget. *)
Theorem unreadable_balance_raises self s items fields text :
  answers self (op_get_account_balance "USDT") (Ret (VList items)) ->
  Forall has_asset items ->
  find (holds "USDT") items = Some (VDict fields) ->
  Py.lookup "error" fields = None ->
  Py.lookup "balance" fields = Some (VStr text) ->
  Num.parse_float text = None ->
  Page.outcome_of (fetch_usdt_balance self s)
  = Raise (builtin_error ValueError
             ("could not convert string to float: " ++ Py.repr_str text))
  /\ forall content, ~ In (Main (Show st_error content))
                          (Page.trace (fetch_usdt_balance self s)).
Proof.
  intros H Hitems Hfind Herr Hbal Hbad.
  remember (fetch_usdt_balance self s) as run eqn:E.
  unfold fetch_usdt_balance, show_balance in E.
  unfold Page.bind, Page.lift, Page.ret, st_metric, Page.emit in E.
  rewrite (get_account_balance_run self "USDT" items H Hitems), Hfind in E.
  cbn [events result fst snd map] in E.
  assert (Htruthy : Py.truthy (VDict fields) = true)
    by (destruct fields; [discriminate Hbal | reflexivity]).
  rewrite Htruthy in E.
  cbn [PyOps.contains PyMore.get ret events result fst snd map app] in E.
  rewrite Herr in E. cbn [events result fst snd map app ret] in E.
  rewrite Hbal in E. cbn [PyMore.float] in E. unfold PyOps.float in E.
  rewrite Hbad in E. cbn in E. subst run. cbn. split; [reflexivity |].
  intros content Hin.
  repeat (destruct Hin as [Hin | Hin]; [discriminate Hin |]). exact Hin.
Qed.

Lemma unreadable_balance_raises_witness :
  Page.outcome_of
    (fetch_usdt_balance
       (bot_answering (Ret (VList [VDict [("asset", VStr "USDT"); ("balance", VStr "n/a")]])))
       (SessionState.initial "" ""))
  = Raise (builtin_error ValueError "could not convert string to float: 'n/a'").
Proof.
  refine (proj1 (unreadable_balance_raises
                   (bot_answering
                      (Ret (VList [VDict [("asset", VStr "USDT"); ("balance", VStr "n/a")]])))
                   (SessionState.initial "" "")
                   [VDict [("asset", VStr "USDT"); ("balance", VStr "n/a")]]
                   [("asset", VStr "USDT"); ("balance", VStr "n/a")] "n/a"
                   eq_refl _ eq_refl eq_refl eq_refl eq_refl)).
  constructor; [| constructor].
  exists [("asset", VStr "USDT"); ("balance", VStr "n/a")], (VStr "USDT").
  split; reflexivity.
Defined.

(** X23: an asset that no entry of the list holds is reported by the
    other-asset form with the symbol in upper case, however it was typed,
    and without a details widget: the run is the facade's three events, one
    error widget and one log record. *)
Theorem missing_asset_is_reported_in_upper_case self asset_input s items :
  asset_input <> "" ->
  answers self (op_get_account_balance asset_input) (Ret (VList items)) ->
  Forall has_asset items ->
  (forall entry, In entry items -> holds asset_input entry = false) ->
  fetch_other_balance self asset_input s
  = ([Main (Log INFO ("Fetching account balance for asset: " ++ Text.upper asset_input));
      Main (Call futures_account_balance);
      Main (Log WARNING ("Asset " ++ Text.upper asset_input
                         ++ " not found in futures account balance."));
      Main (Show st_error
              (VStr ("Failed to fetch balance for " ++ Text.upper asset_input ++ ": "
                     ++ "Asset " ++ Text.upper asset_input ++ " not found.")));
      Main (Log ERROR ("Streamlit UI Get Balance Failed for " ++ Text.upper asset_input
                       ++ ": " ++ Py.str (not_found (Text.upper asset_input))))],
     s, Ret tt).
Proof.
  intros Hsym H Hitems Habsent.
  assert (Hnone : find (holds (Text.upper asset_input)) items = None).
  { apply find_nothing. intros entry Hin.
    pose proof (Habsent entry Hin) as Hentry. unfold holds in *.
    now rewrite upper_twice. }
  unfold fetch_other_balance.
  assert (Hguard : negb (Py.truthy (VStr (Text.upper asset_input))) = false).
  { cbn [Py.truthy]. rewrite negb_involutive. apply String.eqb_neq.
    intros Hup. apply Hsym. now apply upper_empty. }
  rewrite Hguard.
  unfold Page.bind, Page.lift, Page.ret.
  rewrite (get_account_balance_run self (Text.upper asset_input) items H Hitems), Hnone.
  reflexivity.
Qed.

Lemma missing_asset_is_reported_in_upper_case_witness :
  In (Main (Show st_error (VStr "Failed to fetch balance for BNB: Asset BNB not found.")))
     (Page.trace (fetch_other_balance bot_usdt "bnb" (SessionState.initial "" ""))).
Proof.
  assert (Hrun := missing_asset_is_reported_in_upper_case
                    bot_usdt "bnb" (SessionState.initial "" "") [usdt_record]).
  rewrite Hrun.
  - right; right; right; left. reflexivity.
  - discriminate.
  - reflexivity.
  - exact usdt_list_has_asset.
  - intros entry [<- | []]. reflexivity.
Defined.

(** X24: when the balance call fails with an API exception whose response
    is [None] or false, the other-asset form shows the facade's
    placeholder text in the details widget, as if it were a diagnostic
    payload of the exchange (unless the message of the exception is the
    not-found text for that symbol, which hides the widget). *)
Theorem placeholder_is_shown_as_details self asset_input s e :
  asset_input <> "" ->
  answers self (op_get_account_balance asset_input) (Raise e) ->
  exc_type e = BinanceAPIException ->
  response_is_false e ->
  exc_str e <> ("Asset " ++ Text.upper asset_input ++ " not found.")%string ->
  fetch_other_balance self asset_input s
  = ([Main (Log INFO ("Fetching account balance for asset: " ++ Text.upper asset_input));
      Main (Call futures_account_balance);
      Main (Log ERROR ("Binance API Exception fetching account balance: " ++ exc_str e));
      Main (Show st_error
              (VStr ("Failed to fetch balance for " ++ Text.upper asset_input ++ ": "
                     ++ exc_str e)));
      Main (Show st_json (VStr "No response details"));
      Main (Log ERROR ("Streamlit UI Get Balance Failed for " ++ Text.upper asset_input
                       ++ ": " ++ Py.str (with_details e (VStr "No response details"))))],
     s, Ret tt).
Proof.
  intros Hsym H Hclass Hfalse Hother. unfold answers, request_of in H.
  unfold fetch_other_balance.
  assert (Hguard : negb (Py.truthy (VStr (Text.upper asset_input))) = false).
  { cbn [Py.truthy]. rewrite negb_involutive. apply String.eqb_neq.
    intros Hup. apply Hsym. now apply upper_empty. }
  rewrite Hguard.
  assert (Hrun : get_account_balance self (Text.upper asset_input)
                 = ([Log INFO ("Fetching account balance for asset: " ++ Text.upper asset_input);
                     Call futures_account_balance;
                     Log ERROR ("Binance API Exception fetching account balance: " ++ exc_str e)],
                    Ret (with_details e (VStr "No response details")))).
  { unfold get_account_balance, try_except, bind, logger_info, logger_error, emit, call, lift,
      error_with_details, PyOps.response_details.
    rewrite H. cbn. rewrite Hclass. cbn.
    destruct Hfalse as [-> | [json ->]]; reflexivity. }
  apply String.eqb_neq in Hother.
  remember ("Asset " ++ Text.upper asset_input ++ " not found.")%string as target.
  unfold Page.bind, Page.lift, Page.ret. rewrite Hrun. unfold with_details.
  cbn. rewrite Hother. reflexivity.
Qed.

Lemma placeholder_is_shown_as_details_witness :
  In (Main (Show st_json (VStr "No response details")))
     (Page.trace (fetch_other_balance bot_bare "bnb" (SessionState.initial "" ""))).
Proof.
  assert (Hrun := placeholder_is_shown_as_details
                    bot_bare "bnb" (SessionState.initial "" "") api_error_bare).
  rewrite Hrun.
  - do 4 right; left. reflexivity.
  - discriminate.
  - reflexivity.
  - reflexivity.
  - left; reflexivity.
  - discriminate.
Defined.

(** ** What the order form shows when it rejects *)




